(** * jstatmon: the per-process JVM statistics collection pipeline

    A shallow embedding of [src/jstatmon/client.py] (class [JStatmonClient])
    and the properties of its executable locator, process enumerator,
    process inspector, privilege demotion, statistics parser and run loop.

    Text is [string] (code points below 256), the metric tables are
    [gmap string string], lists updated by index use stdpp's list insert
    with Python's [IndexError] written out, and everything that touches the
    host (file system, password database, subprocesses) is read from a
    [World] record.  Logger calls and subprocess launches are recorded, in
    order, in a trace of events threaded through an exception monad. *)

From Stdlib Require Import ZArith Ascii String.
From stdpp Require Import base option list strings gmap.

Local Open Scope string_scope.
Local Open Scope list_scope.
Local Open Scope nat_scope.

(** ** Python built-ins used by the client *)

Module Py.

(** [str.isspace] on one code point below 256. *)
Definition isspace (c : ascii) : bool :=
  let n := nat_of_ascii c in
  (((9 <=? n) && (n <=? 13)) || ((28 <=? n) && (n <=? 32))
   || (n =? 133) || (n =? 160))%nat.

Fixpoint lstrip_by (p : ascii → bool) (s : string) : string :=
  match s with
  | EmptyString => EmptyString
  | String c s' => if p c then lstrip_by p s' else s
  end.

Fixpoint rstrip_by (p : ascii → bool) (s : string) : string :=
  match s with
  | EmptyString => EmptyString
  | String c s' =>
      match rstrip_by p s' with
      | EmptyString => if p c then EmptyString else String c EmptyString
      | r => String c r
      end
  end.

(** [s.strip()] *)
Definition strip (s : string) : string :=
  rstrip_by isspace (lstrip_by isspace s).

(** [s.strip(ch)] for a one-character argument. *)
Definition strip_char (ch : ascii) (s : string) : string :=
  rstrip_by (Ascii.eqb ch) (lstrip_by (Ascii.eqb ch) s).

(** [s.split(sep)] for a one-character separator: never the empty list. *)
Fixpoint split (sep : ascii) (s : string) : list string :=
  match s with
  | EmptyString => [EmptyString]
  | String c s' =>
      if Ascii.eqb c sep then EmptyString :: split sep s'
      else match split sep s' with
           | h :: t => String c h :: t
           | [] => [String c EmptyString]
           end
  end.

(** [s.split()]: the maximal runs of non-whitespace characters. *)
Fixpoint fields (s : string) : list string :=
  match s with
  | EmptyString => []
  | String c s' =>
      if isspace c then fields s'
      else match s' with
           | EmptyString => [String c EmptyString]
           | String c' _ =>
               if isspace c' then String c EmptyString :: fields s'
               else match fields s' with
                    | h :: t => String c h :: t
                    | [] => [String c EmptyString]
                    end
           end
  end.

(** [sep.join(l)] *)
Fixpoint join (sep : string) (l : list string) : string :=
  match l with
  | [] => EmptyString
  | [x] => x
  | x :: l' => x +:+ sep +:+ join sep l'
  end.

(** [s[1:]] *)
Definition tail (s : string) : string :=
  match s with
  | EmptyString => EmptyString
  | String _ s' => s'
  end.

(** Truth value of a string and of a list. *)
Definition truthy (s : string) : bool :=
  match s with EmptyString => false | _ => true end.

Definition nonempty {A} (l : list A) : bool :=
  match l with [] => false | _ => true end.

End Py.

(** ** [os.path] on a POSIX host *)

Module PosixPath.

Definition sep : ascii := "/"%char.

(** [os.pathsep] *)
Definition pathsep : ascii := ":"%char.

Fixpoint contains (ch : ascii) (s : string) : bool :=
  match s with
  | EmptyString => false
  | String c s' => Ascii.eqb c ch || contains ch s'
  end.

(** [head, tail = split(p)]: [head] is everything up to the last slash
    (with its trailing slashes removed unless it consists of slashes
    only), [tail] what follows the last slash. *)
Fixpoint split_go (p : string) : string * string :=
  match p with
  | EmptyString => (EmptyString, EmptyString)
  | String c p' =>
      if contains sep p' then
        let '(h, t) := split_go p' in (String c h, t)
      else if Ascii.eqb c sep then (String c EmptyString, p')
      else (EmptyString, p)
  end.

Fixpoint all_sep (s : string) : bool :=
  match s with
  | EmptyString => true
  | String c s' => Ascii.eqb c sep && all_sep s'
  end.

Definition split (p : string) : string * string :=
  let '(head, tail) := split_go p in
  if Py.truthy head && negb (all_sep head)
  then (Py.rstrip_by (Ascii.eqb sep) head, tail)
  else (head, tail).

Definition startswith_sep (s : string) : bool :=
  match s with
  | String c _ => Ascii.eqb c sep
  | EmptyString => false
  end.

Fixpoint endswith_sep (s : string) : bool :=
  match s with
  | EmptyString => false
  | String c EmptyString => Ascii.eqb c sep
  | String _ s' => endswith_sep s'
  end.

(** [join(a, b)] *)
Definition join (a b : string) : string :=
  if startswith_sep b then b
  else if negb (Py.truthy a) || endswith_sep a then a +:+ b
  else a +:+ String sep b.

End PosixPath.

(** ** Exceptions, events and the monad of the client's methods *)

Inductive exn :=
  | KeyError (key : string)
  | IndexError
  | TypeError
  | ValueError (what : string)
  | OSError (what : string).

Inductive level := DEBUG | INFO | WARNING | ERROR.

(** The two system calls of the pre-execution function. *)
Inductive syscall :=
  | Setgid (gid : Z)
  | Setuid (uid : Z).

(** A [preexec_fn]: the system calls its body requests, in program order. *)
Definition preexec_fn := list syscall.

(** The text handed to a logger call.  [ItemNotFound] is the message of the
    warning in [_jstat_details], whose text embeds the printed form of the
    whole metric map; it keeps the map itself. *)
Inductive message :=
  | Plain (text : string)
  | ItemNotFound (env opt title : string) (mm : option (gmap string string)).

(** What a run does that an observer can see: each logger call, and each
    subprocess launch with its command line and pre-execution function. *)
Inductive event :=
  | Log (lvl : level) (m : message)
  | Spawn (cmd_array : list string) (pre : option preexec_fn).

Definition trace := list event.

Definition M (A : Type) : Type := trace → (exn + A) * trace.

Definition ret {A} (a : A) : M A := λ t, (inr a, t).

Definition bind {A B} (m : M A) (k : A → M B) : M B :=
  λ t, match m t with
       | (inl e, t') => (inl e, t')
       | (inr a, t') => k a t'
       end.

Definition raise {A} (e : exn) : M A := λ t, (inl e, t).

Definition emit (ev : event) : M unit := λ t, (inr tt, t ++ [ev]).

Notation "'do' x <- m ; k" := (bind m (λ x, k))
  (at level 10, x name, m at level 100, k at level 200).
Notation "'do' ' pat <- m ; k" := (bind m (λ x, match x with pat => k end))
  (at level 10, pat pattern, m at level 100, k at level 200).
Notation "'exec' m ; k" := (bind m (λ _, k))
  (at level 10, m at level 100, k at level 200).

(** [l[i]] for [i >= 0] *)
Definition getitem {A} (l : list A) (i : nat) : M A :=
  match l !! i with
  | Some x => ret x
  | None => raise IndexError
  end.

(** [l[i] = x] for [i >= 0] *)
Definition setitem {A} (l : list A) (i : nat) (x : A) : M (list A) :=
  if decide (i < length l) then ret (<[i:=x]> l) else raise IndexError.

(** ** [shlex.split] *)

Module Shlex.

(** The lexer of [shlex.split(s)]: POSIX mode, [whitespace_split] on, no
    comment characters, no punctuation characters. *)
Definition whitespace (c : ascii) : bool :=
  Ascii.eqb c " " || Ascii.eqb c "009" || Ascii.eqb c "013"
  || Ascii.eqb c "010".

Definition squote : ascii := "'"%char.
Definition dquote : ascii := ascii_of_nat 34.
Definition backslash : ascii := "\"%char.

Definition quotes (c : ascii) : bool :=
  Ascii.eqb c squote || Ascii.eqb c dquote.

(** [escapedstate]: where an escape returns to. *)
Inductive escapedstate := BackToWord | BackToDquote.

(** [self.state]: [' '], ['a'], a quote character, or the escape
    character. *)
Inductive state :=
  | Blank
  | Word
  | InQuote (q : ascii)
  | Escape (back : escapedstate).

Definition push (token : string) (rest : exn + list string)
    : exn + list string :=
  match rest with
  | inl e => inl e
  | inr tokens => inr (token :: tokens)
  end.

(** [token += nextchar] *)
Definition add (token : string) (c : ascii) : string :=
  token +:+ String c EmptyString.

(** The loop of [read_token], run over the whole input: [token] and
    [quoted] are those of the token being read, and a token is pushed where
    [read_token] breaks. *)
Fixpoint lex (st : state) (quoted : bool) (token : string) (s : string)
    : exn + list string :=
  match s with
  | EmptyString =>
      match st with
      | Blank | Word =>
          inr (if Py.truthy token || quoted then [token] else [])
      | InQuote _ => inl (ValueError "No closing quotation")
      | Escape _ => inl (ValueError "No escaped character")
      end
  | String c s' =>
      match st with
      | Blank =>
          if whitespace c then
            if Py.truthy token || quoted
            then push token (lex Blank false EmptyString s')
            else lex Blank quoted token s'
          else if Ascii.eqb c backslash then
            lex (Escape BackToWord) quoted token s'
          else if quotes c then lex (InQuote c) quoted token s'
          else lex Word quoted (String c EmptyString) s'
      | Word =>
          if whitespace c then
            if Py.truthy token || quoted
            then push token (lex Blank false EmptyString s')
            else lex Blank quoted token s'
          else if quotes c then lex (InQuote c) quoted token s'
          else if Ascii.eqb c backslash then
            lex (Escape BackToWord) quoted token s'
          else lex Word quoted (add token c) s'
      | InQuote q =>
          if Ascii.eqb c q then lex Word true token s'
          else if Ascii.eqb c backslash && Ascii.eqb q dquote then
            lex (Escape BackToDquote) true token s'
          else lex (InQuote q) true (add token c) s'
      | Escape back =>
          match back with
          | BackToWord => lex Word quoted (add token c) s'
          | BackToDquote =>
              let token :=
                if negb (Ascii.eqb c backslash) && negb (Ascii.eqb c dquote)
                then add token backslash else token in
              lex (InQuote dquote) quoted (add token c) s'
          end
      end
  end.

Definition split (s : string) : exn + list string :=
  lex Blank false EmptyString s.

End Shlex.

(** ** The host *)

Record passwd := { pw_uid : Z; pw_gid : Z }.

(** [environ_PATH] is [os.environ] at ['PATH']; [isfile] and [access_X_OK]
    are [os.path.isfile] and [os.access(_, X_OK)]; [getpwnam] is
    [pwd.getpwnam] ([None] where it raises [KeyError]); [popen argv pre] is
    [Popen(argv, ..., preexec_fn=pre)] followed by [p.wait()] and
    [p.communicate()]: an exception, or the captured standard output and
    standard error (a subprocess that never ends is outside the model).
    The host does not change during one run. *)
Record World := {
  environ_PATH : option string;
  isfile : string → bool;
  access_X_OK : string → bool;
  getpwnam : string → option passwd;
  popen : list string → option preexec_fn → exn + (string * string);
}.

(** ** Metric schema ([JStatmonClient.__init__]) *)

Definition metric_maps_gc : gmap string string := list_to_map [
  ("S0C", "current_survivor_space_0_capacity_kB");
  ("S1C", "current_survivor_space_1_capacity_kB");
  ("S0U", "survivor_space_0_utilization_kB");
  ("S1U", "survivor_space_1_utilization_kB");
  ("EC", "current_eden_space_capacity_kB");
  ("EU", "eden_space_utilization_kB");
  ("OC", "current_old_space_capacity_kB");
  ("OU", "old_space_utilization_kB");
  ("MC", "metaspace_capacity_kB");
  ("MU", "metaspace_utilization_kB");
  ("CCSC", "compressed_class_space_capacity_kB");
  ("CCSU", "compressed_class_space_utilization_kB");
  ("PC", "current_permanent_space_capacity_kB");
  ("PU", "permanent_space_utilization_kB");
  ("YGC", "number_of_young_generation_GC_events");
  ("YGCT", "young_generation_garbage_collection_time");
  ("FGC", "number_of_stop_the_world_events");
  ("FGCT", "full_garbage_collection_time");
  ("GCT", "total_garbage_collection_time") ].

Definition metric_maps_gccapacity : gmap string string := list_to_map [
  ("NGCMN", "minimum_new_generation_capacity_kB");
  ("NGCMX", "maximum_new_generation_capacity_kB");
  ("NGC", "current_new_generation_capacity_kB");
  ("S0C", "current_survivor_space_0_capacity_kB");
  ("S1C", "current_survivor_space_1_capacity_kB");
  ("EC", "current_eden_space_capacity_kB");
  ("OGCMN", "minimum_old_generation_capacity_kB");
  ("OGCMX", "maximum_old_generation_capacity_kB");
  ("OGC", "current_old_generation_capacity_kB");
  ("OC", "current_old_space_capacity_kB");
  ("MCMN", "minimum_metaspace_capacity_kB");
  ("MCMX", "maximum_metaspace_capacity_kB");
  ("MC", "metaspace_capacity_kB");
  ("CCSMN", "compressed_class_space_minimum_capacity_kB");
  ("CCSMX", "compressed_class_space_maximum_capacity_kB");
  ("CCSC", "compressed_class_space_capacity_kB");
  ("YGC", "number_of_young_generation_GC_events");
  ("FGC", "number_of_stop_the_world_events") ].

Definition metric_maps_gccause : gmap string string := list_to_map [
  ("LGCC", "cause_of_last_garbage_collection");
  ("GCC", "cause_of_current_garbage_collection") ].

Definition metric_maps_gcnew : gmap string string := list_to_map [
  ("S0C", "current_survivor_space_0_capacity_kB");
  ("S1C", "current_survivor_space_1_capacity_kB");
  ("S0U", "survivor_space_0_utilization_kB");
  ("S1U", "survivor_space_1_utilization_kB");
  ("TT", "tenuring_threshold");
  ("MTT", "maximum_tenuring_threshold");
  ("DSS", "desired_survivor_size_kB");
  ("EC", "current_eden_space_capacity_kB");
  ("EU", "eden_space_utilization_kB");
  ("YGC", "number_of_young_generation_GC_events");
  ("YGCT", "young_generation_garbage_collection_time") ].

Definition metric_maps_compiler : gmap string string := list_to_map [
  ("Compiled", "number_of_compilation_tasks_performed");
  ("Failed", "number_of_compilation_tasks_failed");
  ("Invalid", "number_of_compilation_tasks_that_were_invalidated");
  ("Time", "time_spent_performing_compilation_tasks");
  ("FailedType", "compile_type_of_the_last_failed_compilation");
  ("FailedMethod", "class_name_and_method_of_the_last_failed_compilation") ].

Definition metric_maps_class : gmap string string := list_to_map [
  ("Loaded", "number_of_classes_loaded");
  ("Bytes_column2", "number_of_kBs_loaded");
  ("Unloaded", "number_of_classes_unloaded");
  ("Bytes_column4", "number_of_kBs_unloaded");
  ("Time", "time_spent_performing_class_loading_and_unloading_operations") ].

(** The option list of [_jstat_details]. *)
Definition options : list string :=
  ["-gc"; "-gccapacity"; "-gcnew"; "-compiler"; "-class"].

(** ** Privilege demotion ([JStatmonClient._demote]) *)

Definition _demote (user_uid user_gid : Z) : preexec_fn :=
  [Setgid user_gid; Setuid user_uid].

(** Calling a pre-execution function under a kernel that grants or refuses
    each request given the requests granted so far: the body stops at the
    first refusal (the system call raises).  Returns the requests made, in
    order, and whether the body completed. *)
Fixpoint call_preexec (grants : list syscall → syscall → bool)
    (granted : list syscall) (f : preexec_fn) : list syscall * bool :=
  match f with
  | [] => ([], true)
  | c :: f' =>
      if grants granted c then
        let '(reqs, ok) := call_preexec grants (granted ++ [c]) f' in
        (c :: reqs, ok)
      else ([c], false)
  end.

(** ** The client ([JStatmonClient]) *)

Definition dquote : ascii := Shlex.dquote.
Definition newline : ascii := "010"%char.

(** A process reference: the tuple [(pid, command, user)]. *)
Definition pid_cmd_user : Type := string * string * string.

Section Client.

Context (w : World) (environment : string).

(** ['application=jstatmon environment={env} msg=...'.format(env=...)] *)
Definition msg (text : string) : string :=
  "application=jstatmon environment=" +:+ environment +:+ " msg=" +:+ text.

Definition debug (text : string) : M unit :=
  emit (Log DEBUG (Plain (msg text))).

(** [if stderr: self.logger.error(stderr)] *)
Definition log_stderr (stderr : string) : M unit :=
  if Py.truthy stderr then emit (Log ERROR (Plain stderr)) else ret tt.

(** [shlex.split(cmd)] *)
Definition shlex_split (cmd : string) : M (list string) :=
  match Shlex.split cmd with
  | inl e => raise e
  | inr cmd_array => ret cmd_array
  end.

(** [p = Popen(cmd_array, ..., preexec_fn=pre)], [p.wait()],
    [p.communicate()] *)
Definition Popen (cmd_array : list string) (pre : option preexec_fn)
    : M (string * string) :=
  exec emit (Spawn cmd_array pre);
  match popen w cmd_array pre with
  | inl e => raise e
  | inr out => ret out
  end.

Definition _is_executable (fpath : string) : bool :=
  isfile w fpath && access_X_OK w fpath.

(** The [for path in ...] loop of [_which]. *)
Fixpoint which_scan (program : string) (paths : list string)
    : option string :=
  match paths with
  | [] => None
  | path :: rest =>
      let path := Py.strip_char dquote path in
      let executable := PosixPath.join path program in
      if _is_executable executable then Some executable
      else which_scan program rest
  end.

Definition _which (program : string) : M (option string) :=
  exec debug "start JStatmonClient._get_java_pids";
  let '(fpath, fname) := PosixPath.split program in
  if Py.truthy fpath then
    if _is_executable program then ret (Some program) else ret None
  else
    match environ_PATH w with
    | None => raise (KeyError "PATH")
    | Some path_env =>
        ret (which_scan program (Py.split PosixPath.pathsep path_env))
    end.

(** Truth value of what [_which] returned. *)
Definition found (executable : option string) : option string :=
  match executable with
  | Some e => if Py.truthy e then Some e else None
  | None => None
  end.

(** [stdout.strip().split('\n')] *)
Definition pids_of_stdout (stdout : string) : list string :=
  Py.split newline (Py.strip stdout).

Definition _get_java_pids : M (option (list string)) :=
  exec debug "start JStatmonClient._get_java_pids";
  do pgrep_executable <- _which "pgrep";
  match found pgrep_executable with
  | Some pgrep =>
      do cmd_array <- shlex_split (pgrep +:+ " java");
      do '(stdout, stderr) <- Popen cmd_array None;
      exec log_stderr stderr;
      let pids := pids_of_stdout stdout in
      exec debug "end JStatmonClient._get_java_pids";
      ret (Some pids)
  | None =>
      exec emit (Log ERROR (Plain "failed to retrieve pgrep executable location"));
      exec debug "end JStatmonClient._get_java_pids";
      ret None
  end.

Definition _pid_to_command (pid : string) : M (option pid_cmd_user) :=
  exec debug "start JStatmonClient._pid_to_command";
  do ps_executable <- _which "ps";
  match found ps_executable with
  | Some ps =>
      do cmd_array <- shlex_split (ps +:+ " -p " +:+ pid +:+ " -o command=");
      do '(stdout, stderr) <- Popen cmd_array None;
      exec log_stderr stderr;
      let command := Py.strip stdout in
      do cmd_array <- shlex_split (ps +:+ " -p " +:+ pid +:+ " -o user=");
      do '(stdout, stderr) <- Popen cmd_array None;
      exec log_stderr stderr;
      let user := Py.strip stdout in
      exec debug "end JStatmonClient._pid_to_command";
      ret (Some (pid, command, user))
  | None =>
      exec emit (Log ERROR (Plain (msg "failed to find ps executable")));
      ret None
  end.

(** The [if option == ...] chain of [_jstat_details]. *)
Definition select_metric_maps (opt : string)
    : M (option (gmap string string)) :=
  if String.eqb opt "-gc" then
    exec debug "-gc option identified"; ret (Some metric_maps_gc)
  else if String.eqb opt "-gccapacity" then
    exec debug "-gccapacity option identified";
    ret (Some metric_maps_gccapacity)
  else if String.eqb opt "-gcnew" then
    exec debug "-gcnew option identified"; ret (Some metric_maps_gcnew)
  else if String.eqb opt "-compiler" then
    exec debug "-compiler option identified";
    ret (Some metric_maps_compiler)
  else if String.eqb opt "-gccause" then
    exec debug "-gccause option identified";
    ret (Some metric_maps_gccause)
  else if String.eqb opt "-class" then
    exec debug "-class option identified"; ret (Some metric_maps_class)
  else
    exec emit (Log ERROR (Plain ("unknown option " +:+ opt))); ret None.

(** The six context tokens every metrics list starts with. *)
Definition context_tokens (opt : string) (pc : pid_cmd_user)
    : list string :=
  let '(pid, cmd, user) := pc in
  [ "application=jstatmon";
    "environment=" +:+ environment;
    "option=" +:+ opt;
    "user=" +:+ user;
    "pid=" +:+ pid;
    "command=" +:+ cmd ].

(** ['{key}={value}'] with [key = '{opt}_{title}'], [opt] the option
    without its first character
    and [title] the long name. *)
Definition metric_token (opt long value : string) : string :=
  (Py.tail opt +:+ "_" +:+ long) +:+ "=" +:+ value.

(** The [for position, title in enumerate(titles)] loop: [position] is
    the index of the head of [titles], [metrics] the list built so far. *)
Fixpoint map_titles (opt : string)
    (metric_maps : option (gmap string string)) (values_all : list string)
    (position : nat) (titles : list string) (metrics : list string)
    : M (list string) :=
  match titles with
  | [] => ret metrics
  | title :: rest =>
      match metric_maps with
      | None => raise TypeError
      | Some mm =>
          match mm !! title with
          | Some long =>
              do value <- getitem values_all position;
              map_titles opt metric_maps values_all (S position) rest
                (metrics ++ [metric_token opt long value])
          | None =>
              exec emit (Log WARNING
                       (ItemNotFound environment opt title metric_maps));
              map_titles opt metric_maps values_all (S position) rest
                metrics
          end
      end
  end.

(** The [-class] rewrite of the two [Bytes] titles. *)
Definition rewrite_titles (opt : string) (titles : list string)
    : M (list string) :=
  if String.eqb opt "-class" then
    do titles <- setitem titles 1 "Bytes_column2";
    setitem titles 3 "Bytes_column4"
  else ret titles.

(** The metrics of one option from the two token rows. *)
Definition build_metrics (opt : string)
    (metric_maps : option (gmap string string)) (pc : pid_cmd_user)
    (titles values_all : list string) : M (list string) :=
  do titles <- rewrite_titles opt titles;
  map_titles opt metric_maps values_all 0 titles
    (context_tokens opt pc).

(** From the captured standard output of the statistics tool to the
    metrics list of one option. *)
Definition parse_stats (opt : string)
    (metric_maps : option (gmap string string)) (pc : pid_cmd_user)
    (stdout : string) : M (list string) :=
  let output := Py.strip stdout in
  do values_line <- getitem (Py.split newline output) 1;
  let values_all := Py.fields values_line in
  do titles_line <- getitem (Py.split newline output) 0;
  let titles := Py.fields titles_line in
  build_metrics opt metric_maps pc titles values_all.

(** One iteration of the [for option in ...] loop. *)
Definition jstat_option (jstat_executable : string) (pc : pid_cmd_user)
    (opt : string) : M (list string) :=
  let '(pid, cmd, user) := pc in
  do metric_maps <- select_metric_maps opt;
  do cmd_array <-
    shlex_split (jstat_executable +:+ " " +:+ opt +:+ " " +:+ pid);
  do record <- match getpwnam w user with
               | Some r => ret r
               | None => raise (KeyError user)
               end;
  do '(stdout, stderr) <-
    Popen cmd_array (Some (_demote (pw_uid record) (pw_gid record)));
  exec log_stderr stderr;
  parse_stats opt metric_maps pc stdout.

Fixpoint jstat_options (jstat_executable : string) (pc : pid_cmd_user)
    (opts : list string) (stats : list (list string))
    : M (list (list string)) :=
  match opts with
  | [] => ret stats
  | opt :: rest =>
      do metrics <- jstat_option jstat_executable pc opt;
      jstat_options jstat_executable pc rest (stats ++ [metrics])
  end.

Definition _jstat_details (pc : pid_cmd_user)
    : M (option (list (list string))) :=
  exec debug "start JStatmonClient._jstat_details";
  do jstat_executable <- _which "jstat";
  match found jstat_executable with
  | Some jstat =>
      do stats <- jstat_options jstat pc options [];
      exec debug "end JStatmonClient._pid_to_command";
      ret (Some stats)
  | None =>
      exec emit (Log ERROR (Plain (msg "failed to find jstat executable")));
      ret None
  end.

Definition _interpret_jstat (metrics : list string) : M unit :=
  emit (Log INFO (Plain (Py.join " " metrics))).

(** The first loop of [run]: [for pid in pids]. *)
Fixpoint inspect_all (pids : list string) (pid_cmd : list pid_cmd_user)
    : M (list pid_cmd_user) :=
  match pids with
  | [] => ret pid_cmd
  | pid :: rest =>
      do item <- _pid_to_command pid;
      match item with
      | Some it => inspect_all rest (pid_cmd ++ [it])
      | None =>
          exec emit (Log WARNING
                       (Plain (msg ("Failed to find command / user for PID "
                                    +:+ pid))));
          inspect_all rest pid_cmd
      end
  end.

Fixpoint interpret_all (metrics : list (list string)) : M unit :=
  match metrics with
  | [] => ret tt
  | metric :: rest => exec _interpret_jstat metric; interpret_all rest
  end.

(** The second loop of [run]: [for pc in pid_cmd]. *)
Fixpoint collect_all (pid_cmd : list pid_cmd_user) : M unit :=
  match pid_cmd with
  | [] => ret tt
  | pc :: rest =>
      do metrics <- _jstat_details pc;
      exec match metrics with
           | Some ms => interpret_all ms
           | None => raise TypeError
           end;
      collect_all rest
  end.

Definition run : M unit :=
  exec debug "start JStatmonClient.run";
  do pids <- _get_java_pids;
  exec match pids with
       | Some pids =>
           if Py.nonempty pids then
             exec debug ("retrieved java pids pids=" +:+ Py.join ", " pids);
             do pid_cmd <- inspect_all pids [];
             collect_all pid_cmd
           else ret tt
       | None => ret tt
       end;
  debug "end JStatmonClient.run".

End Client.


(** ** Vocabulary of the statements *)

(** The header row as the mapping loop sees it: the raw titles, with the
    two [Bytes] columns renamed when the option is [-class]. *)
Definition rewritten (opt : string) (titles : list string) : list string :=
  if String.eqb opt "-class"
  then <[3:="Bytes_column4"]> (<[1:="Bytes_column2"]> titles)
  else titles.

(** Every header that the mapping knows has a value at its own position. *)
Definition aligned (mm : gmap string string) (titles values : list string)
    : Prop :=
  ∀ q title, titles !! q = Some title → is_Some (mm !! title) →
             q < length values.

(** What the header at [position] adds to the metrics list. *)
Definition emitted (opt : string) (mm : gmap string string)
    (values : list string) (position : nat) (title : string) : list string :=
  match mm !! title, values !! position with
  | Some long, Some value => [metric_token opt long value]
  | _, _ => []
  end.

(** What the header adds to the trace. *)
Definition warned (env opt : string) (mm : gmap string string)
    (title : string) : list event :=
  match mm !! title with
  | Some _ => []
  | None => [Log WARNING (ItemNotFound env opt title (Some mm))]
  end.

Definition level_eqb (a b : level) : bool :=
  match a, b with
  | DEBUG, DEBUG | INFO, INFO | WARNING, WARNING | ERROR, ERROR => true
  | _, _ => false
  end.

(** The messages logged at one level, in order. *)
Definition logged (lvl : level) (t : trace) : list message :=
  omap (λ ev, match ev with
              | Log l m => if level_eqb l lvl then Some m else None
              | Spawn _ _ => None
              end) t.

(** The command lines launched, in order. *)
Definition spawned (t : trace) : list string :=
  omap (λ ev, match ev with
              | Spawn cmd_array _ => Some (Py.join " " cmd_array)
              | Log _ _ => None
              end) t.

(** A launch that carries a pre-execution function carries the demotion
    to some account of the host: its group id first, its user id second. *)
Definition demoted (w : World) (ev : event) : Prop :=
  match ev with
  | Spawn _ (Some pre) =>
      ∃ user r, getpwnam w user = Some r
                ∧ pre = [Setgid (pw_gid r); Setuid (pw_uid r)]
  | _ => True
  end.

(** A computation that only appends events to the trace, all of them
    [demoted]. *)
Definition keeps {A} (w : World) (m : M A) : Prop :=
  ∀ t, ∃ evs, (m t).2 = t ++ evs ∧ Forall (demoted w) evs.

(** The header row of [jstat -gc]. *)
Definition gc_header : list string :=
  [ "S0C"; "S1C"; "S0U"; "S1U"; "EC"; "EU"; "OC"; "OU"; "MC"; "MU";
    "CCSC"; "CCSU"; "PC"; "PU"; "YGC"; "YGCT"; "FGC"; "FGCT"; "GCT" ].

(** ** Concrete hosts *)

(** Lookup in a finite table keyed by strings. *)
Definition table {A} (rows : list (string * A)) (key : string) : option A :=
  snd <$> List.find (λ row, String.eqb (fst row) key) rows.

(** A host with the given search path, executable files, accounts and
    command outputs; a command that is not listed prints nothing. *)
Definition host (path_env : string) (executables : list string)
    (accounts : list (string * passwd))
    (outputs : list (string * (string * string))) : World :=
  {| environ_PATH := Some path_env;
     isfile := λ fpath, bool_decide (fpath ∈ executables);
     access_X_OK := λ fpath, bool_decide (fpath ∈ executables);
     getpwnam := table accounts;
     popen := λ cmd_array _,
       inr (default (EmptyString, EmptyString)
              (table outputs (Py.join " " cmd_array))) |}.

Definition app_account : string * passwd :=
  ("app", {| pw_uid := 1000; pw_gid := 100 |}).

(** [jstat] is installed twice; [pgrep] and [ps] once. *)
Definition host_two_jstat : World :=
  host "/opt/java/bin:/usr/bin"
    ["/usr/bin/pgrep"; "/usr/bin/ps"; "/usr/bin/jstat"; "/opt/java/bin/jstat"]
    [app_account] [].

(** One Java process, and no [jstat] anywhere on the search path. *)
Definition host_no_jstat : World :=
  host "/usr/bin" ["/usr/bin/pgrep"; "/usr/bin/ps"] [app_account]
    [ ("/usr/bin/pgrep java", ("42" +:+ String newline EmptyString,
                               EmptyString));
      ("/usr/bin/ps -p 42 -o command=", ("java -jar app.jar", EmptyString));
      ("/usr/bin/ps -p 42 -o user=", ("app", EmptyString)) ].

(** A header line and a values line, as the statistics tool prints them. *)
Definition two_lines (header values : string) : string :=
  header +:+ String newline values +:+ String newline EmptyString.

(** What [/usr/bin/jstat] prints for each option when asked about [pid]. *)
Definition jstat_outputs (pid : string)
    : list (string * (string * string)) :=
  [ ("/usr/bin/jstat -gc " +:+ pid,
     (two_lines " S0C    S1C    EC       OC" "100 100 2048 4096", EmptyString));
    ("/usr/bin/jstat -gccapacity " +:+ pid,
     (two_lines " NGCMN    NGCMX     NGC" "10240.0 20480.0 15360.0",
      EmptyString));
    ("/usr/bin/jstat -gcnew " +:+ pid,
     (two_lines " TT MTT  DSS" "  6  15  512.0", EmptyString));
    ("/usr/bin/jstat -compiler " +:+ pid,
     (two_lines "Compiled Failed Invalid   Time   FailedType FailedMethod"
                "    1849      0       0     1.98          1 Foo.bar",
      EmptyString));
    ("/usr/bin/jstat -class " +:+ pid,
     (two_lines "Loaded  Bytes  Unloaded  Bytes     Time"
                "  3070  5850.4        0     0.0       1.69", EmptyString)) ].

(** What [/usr/bin/ps] prints about a process. *)
Definition ps_outputs (pid command user : string)
    : list (string * (string * string)) :=
  [ ("/usr/bin/ps -p " +:+ pid +:+ " -o command=",
     (command +:+ String newline EmptyString, EmptyString));
    ("/usr/bin/ps -p " +:+ pid +:+ " -o user=",
     (user +:+ String newline EmptyString, EmptyString)) ].

(** One Java process and all three tools. *)
Definition host_healthy : World :=
  host "/usr/bin" ["/usr/bin/pgrep"; "/usr/bin/ps"; "/usr/bin/jstat"]
    [app_account]
    (("/usr/bin/pgrep java", ("1234" +:+ String newline EmptyString,
                              EmptyString))
     :: ps_outputs "1234" "java -jar app.jar" "app"
     ++ jstat_outputs "1234").

(** Three Java processes; the owner of the second has no account. *)
Definition host_ghost_user : World :=
  host "/usr/bin" ["/usr/bin/pgrep"; "/usr/bin/ps"; "/usr/bin/jstat"]
    [app_account]
    (("/usr/bin/pgrep java",
      ("41" +:+ String newline "42" +:+ String newline "43"
       +:+ String newline EmptyString, EmptyString))
     :: ps_outputs "41" "java -jar first.jar" "app"
     ++ ps_outputs "42" "java -jar ghost.jar" "ghost"
     ++ ps_outputs "43" "java -jar third.jar" "app"
     ++ jstat_outputs "41" ++ jstat_outputs "43").

(** One Java process that is gone when [ps] is asked about it. *)
Definition host_evaporated : World :=
  host "/usr/bin" ["/usr/bin/pgrep"; "/usr/bin/ps"; "/usr/bin/jstat"]
    [app_account]
    [ ("/usr/bin/pgrep java", ("42" +:+ String newline EmptyString,
                               EmptyString)) ].

(** No Java process: [pgrep] prints nothing. *)
Definition host_idle : World :=
  host "/usr/bin" ["/usr/bin/pgrep"; "/usr/bin/ps"; "/usr/bin/jstat"]
    [app_account] [].

(** ** Vocabulary of the further properties *)

(** A token as [str.split()] produces them: non-empty, no white space. *)
Fixpoint no_space (s : string) : bool :=
  match s with
  | EmptyString => true
  | String c s' => negb (Py.isspace c) && no_space s'
  end.

Definition word (s : string) : bool := Py.truthy s && no_space s.

(** A word the shell lexer takes literally: non-empty, with no blank, no
    quote and no backslash. *)
Fixpoint plain_chars (s : string) : bool :=
  match s with
  | EmptyString => true
  | String c s' =>
      negb (Shlex.whitespace c) && negb (Shlex.quotes c)
      && negb (Ascii.eqb c Shlex.backslash) && plain_chars s'
  end.

Definition shell_plain (s : string) : bool := Py.truthy s && plain_chars s.

(** A computation that only appends events satisfying [P]. *)
Definition emits {A} (P : event → Prop) (m : M A) : Prop :=
  ∀ t, ∃ evs, (m t).2 = t ++ evs ∧ Forall P evs.

Definition not_info (ev : event) : Prop :=
  match ev with
  | Log INFO _ => False
  | _ => True
  end.

(** The PID of a process reference. *)
Definition pid_of (pc : pid_cmd_user) : string := pc.1.1.

(** What the inspection of one PID adds to the trace when [ps] cannot be
    located: the error of the inspector and the warning of the run. *)
Definition skipped (env pid : string) : list event :=
  [ Log DEBUG (Plain (msg env "start JStatmonClient._pid_to_command"));
    Log DEBUG (Plain (msg env "start JStatmonClient._get_java_pids"));
    Log ERROR (Plain (msg env "failed to find ps executable"));
    Log WARNING (Plain (msg env ("Failed to find command / user for PID "
                                 +:+ pid))) ].

(** A metrics list that opens with the six context tokens of an option
    and a process. *)
Definition opens_with (env : string) (pc : pid_cmd_user) (opt : string)
    (metrics : list string) : Prop :=
  ∃ more, metrics = context_tokens env opt pc ++ more.

(** The statistics of one process: one metrics list per option of the
    option list, in its order. *)
Definition five_lines (env : string) (pc : pid_cmd_user)
    (stats : list (list string)) : Prop :=
  Forall2 (opens_with env pc) options stats.

(** The lines emitted for the statistics of a run of processes. *)
Definition lines_of (statss : list (list (list string))) : list message :=
  (λ metrics, Plain (Py.join " " metrics)) <$> concat statss.

(** The warning for a header that the mapping does not know. *)
Definition unmapped_warning (env opt : string) (mm : gmap string string)
    (ev : event) : Prop :=
  ∃ title, mm !! title = None
           ∧ ev = Log WARNING (ItemNotFound env opt title (Some mm)).

(** Every metric key the run can emit, with the option and the header it
    comes from: for each option of the option list, each header of the
    mapping selected for it. *)
Definition metric_keys : list (string * string * string) :=
  opt ← options;
  match (select_metric_maps EmptyString opt []).1 with
  | inr (Some mm) =>
      (λ entry, (opt, entry.1, Py.tail opt +:+ "_" +:+ entry.2))
        <$> map_to_list mm
  | _ => []
  end.

(** Two hosts that differ at most in what the tools write to standard
    error: same environment, files and accounts, and each launch raises the
    same exception on both or prints the same standard output on both. *)
Definition same_but_stderr (w1 w2 : World) : Prop :=
  environ_PATH w1 = environ_PATH w2
  ∧ (∀ fpath, isfile w1 fpath = isfile w2 fpath)
  ∧ (∀ fpath, access_X_OK w1 fpath = access_X_OK w2 fpath)
  ∧ (∀ user, getpwnam w1 user = getpwnam w2 user)
  ∧ ∀ cmd_array pre,
      match popen w1 cmd_array pre, popen w2 cmd_array pre with
      | inl e1, inl e2 => e1 = e2
      | inr (stdout1, _), inr (stdout2, _) => stdout1 = stdout2
      | _, _ => False
      end.

(** The host with the standard error of every tool silenced. *)
Definition hush (w : World) : World :=
  {| environ_PATH := environ_PATH w;
     isfile := isfile w;
     access_X_OK := access_X_OK w;
     getpwnam := getpwnam w;
     popen := λ cmd_array pre,
       match popen w cmd_array pre with
       | inl e => inl e
       | inr (stdout, _) => inr (stdout, EmptyString)
       end |}.

(** The trace without its ERROR records. *)
Definition drop_errors (t : trace) : trace :=
  List.filter (λ ev, match ev with Log ERROR _ => false | _ => true end) t.

(** Two computations that, from traces equal up to ERROR records, give
    the same result and traces equal up to ERROR records. *)
Definition sim {A} (m1 m2 : M A) : Prop :=
  ∀ t1 t2, drop_errors t1 = drop_errors t2 →
           (m1 t1).1 = (m2 t2).1
           ∧ drop_errors (m1 t1).2 = drop_errors (m2 t2).2.

(** A host on which the tools also write to standard error. *)
Definition host_noisy : World :=
  host "/usr/bin" ["/usr/bin/pgrep"; "/usr/bin/ps"; "/usr/bin/jstat"]
    [app_account]
    (("/usr/bin/pgrep java", ("1234" +:+ String newline EmptyString,
                              "pgrep: warning"))
     :: ("/usr/bin/jstat -gc 1234",
         (two_lines " S0C    S1C    EC       OC" "100 100 2048 4096",
          "Picked up JAVA_TOOL_OPTIONS"))
     :: ps_outputs "1234" "java -jar app.jar" "app"
     ++ jstat_outputs "1234").

(** An event that is not a demoted launch, and one that is not a launch
    without demotion. *)
Definition plain_or_log (ev : event) : Prop :=
  match ev with
  | Spawn _ (Some _) => False
  | _ => True
  end.

Definition demoted_or_log (ev : event) : Prop :=
  match ev with
  | Spawn _ None => False
  | _ => True
  end.

(** A computation whose events come in two phases: first none that is a
    demoted launch, then none that is a launch without demotion. *)
Definition phased {A} (m : M A) : Prop :=
  ∀ t, ∃ first second,
    (m t).2 = t ++ first ++ second
    ∧ Forall plain_or_log first
    ∧ Forall demoted_or_log second.

(** A host whose environment has no [PATH]. *)
Definition host_no_path : World :=
  {| environ_PATH := None;
     isfile := λ _, true;
     access_X_OK := λ _, true;
     getpwnam := table [app_account];
     popen := λ _ _, inr (EmptyString, EmptyString) |}.

(** No [pgrep] on the search path. *)
Definition host_no_pgrep : World :=
  host "/usr/bin" ["/usr/bin/ps"; "/usr/bin/jstat"] [app_account] [].

(** Two Java processes and no [ps] on the search path. *)
Definition host_no_ps : World :=
  host "/usr/bin" ["/usr/bin/pgrep"; "/usr/bin/jstat"] [app_account]
    [ ("/usr/bin/pgrep java",
       ("41" +:+ String newline "42" +:+ String newline EmptyString,
        EmptyString)) ].

(** ** The [-class] header rewrite *)

Lemma setitem_ok {A} (l : list A) (i : nat) (x : A) (t : trace) :
  i < length l → setitem l i x t = (inr (<[i:=x]> l), t).
Proof. intros Hi. unfold setitem. by rewrite decide_True. Qed.

Lemma setitem_raises {A} (l : list A) (i : nat) (x : A) (t : trace) :
  length l ≤ i → setitem l i x t = (inl IndexError, t).
Proof. intros Hi. unfold setitem. rewrite decide_False; [done | lia]. Qed.

Lemma rewrite_titles_other (opt : string) (titles : list string) (t : trace) :
  opt ≠ "-class" → rewrite_titles opt titles t = (inr titles, t).
Proof.
  intros Hne. unfold rewrite_titles.
  destruct (String.eqb_spec opt "-class"); [done | reflexivity].
Qed.

Lemma rewrite_titles_class_ok (titles : list string) (t : trace) :
  3 < length titles →
  rewrite_titles "-class" titles t = (inr (rewritten "-class" titles), t).
Proof.
  intros Hlen. unfold rewrite_titles, rewritten, bind; cbn [String.eqb Ascii.eqb Bool.eqb].
  rewrite setitem_ok by lia.
  rewrite setitem_ok; [done | rewrite length_insert; lia].
Qed.

Lemma rewrite_titles_class_raises (titles : list string) (t : trace) :
  length titles ≤ 3 →
  rewrite_titles "-class" titles t = (inl IndexError, t).
Proof.
  intros Hlen. unfold rewrite_titles, bind; cbn [String.eqb Ascii.eqb Bool.eqb].
  destruct (decide (1 < length titles)) as [H1|H1].
  - rewrite setitem_ok by done.
    rewrite setitem_raises; [done | rewrite length_insert; lia].
  - rewrite setitem_raises; [done | lia].
Qed.

(** The rewrite either yields [rewritten] or raises [IndexError]; it never
    touches the trace. *)
Lemma rewrite_titles_cases (opt : string) (titles : list string) (t : trace) :
  rewrite_titles opt titles t = (inr (rewritten opt titles), t)
  ∨ (opt = "-class" ∧ length titles ≤ 3
     ∧ rewrite_titles opt titles t = (inl IndexError, t)).
Proof.
  destruct (decide (opt = "-class")) as [->|Hne].
  - destruct (decide (3 < length titles)).
    + left. by apply rewrite_titles_class_ok.
    + right. split; [done|]. split; [lia|].
      apply rewrite_titles_class_raises. lia.
  - left. rewrite rewrite_titles_other by done.
    unfold rewritten. by destruct (String.eqb_spec opt "-class").
Qed.

(** C6: for the class category, a header row with [Bytes] at positions 1
    and 3 is rewritten to carry [Bytes_column2] and [Bytes_column4] at
    exactly those positions, every other position is unchanged, both
    synthetic keys resolve in the class mapping (the mapping selected for
    [-class]), and for any other option the header row is left as it is. *)
Theorem class_rewrite_bytes (env : string) (titles : list string) (t : trace) :
  titles !! 1 = Some "Bytes" →
  titles !! 3 = Some "Bytes" →
  ∃ titles',
    rewrite_titles "-class" titles t = (inr titles', t)
    ∧ titles' !! 1 = Some "Bytes_column2"
    ∧ titles' !! 3 = Some "Bytes_column4"
    ∧ length titles' = length titles
    ∧ (∀ i, i ≠ 1 → i ≠ 3 → titles' !! i = titles !! i)
    ∧ (select_metric_maps env "-class" t).1 = inr (Some metric_maps_class)
    ∧ metric_maps_class !! "Bytes_column2" = Some "number_of_kBs_loaded"
    ∧ metric_maps_class !! "Bytes_column4" = Some "number_of_kBs_unloaded"
    ∧ (∀ opt, opt ≠ "-class" →
              rewrite_titles opt titles t = (inr titles, t)).
Proof.
  intros H1 H3.
  pose proof (lookup_lt_Some _ _ _ H3) as Hlen.
  exists (rewritten "-class" titles). split.
  { by apply rewrite_titles_class_ok. }
  unfold rewritten; cbn [String.eqb Ascii.eqb Bool.eqb].
  split. { rewrite list_lookup_insert_ne by done.
           apply list_lookup_insert_eq. lia. }
  split. { apply list_lookup_insert_eq. rewrite length_insert. lia. }
  split. { by rewrite !length_insert. }
  split. { intros i Hi1 Hi3. by rewrite !list_lookup_insert_ne. }
  split. { reflexivity. }
  split. { by vm_compute. }
  split. { by vm_compute. }
  intros opt Hne. by apply rewrite_titles_other.
Qed.

Lemma class_rewrite_bytes_witness :
  ["Loaded"; "Bytes"; "Unloaded"; "Bytes"; "Time"] !! 1 = Some "Bytes"
  ∧ ["Loaded"; "Bytes"; "Unloaded"; "Bytes"; "Time"] !! 3 = Some "Bytes"
  ∧ ∃ titles',
      rewrite_titles "-class"
        ["Loaded"; "Bytes"; "Unloaded"; "Bytes"; "Time"] [] = (inr titles', [])
      ∧ titles'
        = ["Loaded"; "Bytes_column2"; "Unloaded"; "Bytes_column4"; "Time"].
Proof.
  split; [reflexivity|]. split; [reflexivity|].
  destruct (class_rewrite_bytes "prod"
              ["Loaded"; "Bytes"; "Unloaded"; "Bytes"; "Time"] []
              eq_refl eq_refl) as (titles' & Hrw & _).
  exists titles'. split; [exact Hrw|].
  vm_compute in Hrw. by inversion Hrw.
Defined.

(** ** The header-to-metric mapping loop *)

Lemma getitem_ok {A} (l : list A) (i : nat) (x : A) (t : trace) :
  l !! i = Some x → getitem l i t = (inr x, t).
Proof. intros H. unfold getitem. by rewrite H. Qed.

Lemma getitem_raises {A} (l : list A) (i : nat) (t : trace) :
  length l ≤ i → getitem l i t = (inl IndexError, t).
Proof. intros H. unfold getitem. by rewrite lookup_ge_None_2. Qed.

Section MapTitles.

Context (env opt : string) (mm : gmap string string) (values : list string).

(** With every known header in range, the loop appends to [metrics] the
    contribution of each position in order and logs one warning per
    unknown header. *)
Lemma map_titles_aligned (titles : list string) :
  ∀ (position : nat) (metrics : list string) (t : trace),
    (∀ i title, titles !! i = Some title → is_Some (mm !! title) →
                position + i < length values) →
    map_titles env opt (Some mm) values position titles metrics t
    = (inr (metrics
            ++ concat (imap (λ i, emitted opt mm values (position + i)) titles)),
       t ++ (titles ≫= warned env opt mm)).
Proof.
  induction titles as [|title rest IH]; intros position metrics t Hal.
  - cbn. by rewrite !app_nil_r.
  - assert (imap (λ i, emitted opt mm values (S position + i)) rest
            = imap ((λ i, emitted opt mm values (position + i)) ∘ S) rest)
      as Hshift.
    { apply imap_ext. intros i x _. cbn. f_equal. lia. }
    cbn [map_titles]. rewrite imap_cons, <- Hshift. cbn [concat mbind list_bind].
    unfold emitted at 1, warned at 1. rewrite Nat.add_0_r.
    destruct (mm !! title) as [long|] eqn:Hmm.
    + destruct (lookup_lt_is_Some_2 values position) as [value Hv].
      { specialize (Hal 0 title eq_refl (mk_is_Some _ _ Hmm)). lia. }
      unfold bind. rewrite (getitem_ok _ _ _ _ Hv), Hv.
      rewrite IH.
      * by rewrite <- !app_assoc.
      * intros i x Hi Hx. specialize (Hal (S i) x Hi Hx). lia.
    + unfold bind, emit. rewrite IH.
      * by rewrite <- !app_assoc.
      * intros i x Hi Hx. specialize (Hal (S i) x Hi Hx). lia.
Qed.

(** With a known header out of range, the loop raises [IndexError]. *)
Lemma map_titles_misaligned (titles : list string) :
  ∀ (position : nat) (metrics : list string) (t : trace),
    (∃ i title, titles !! i = Some title ∧ is_Some (mm !! title)
                ∧ length values ≤ position + i) →
    (map_titles env opt (Some mm) values position titles metrics t).1
    = inl IndexError.
Proof.
  induction titles as [|title rest IH];
    intros position metrics t (i & bad & Hi & Hbad & Hlen).
  - done.
  - cbn [map_titles].
    destruct (mm !! title) as [long|] eqn:Hmm.
    + unfold bind. destruct (values !! position) as [value|] eqn:Hv.
      * rewrite (getitem_ok _ _ _ _ Hv).
        destruct i as [|i].
        { apply lookup_lt_Some in Hv. lia. }
        apply IH. exists i, bad. repeat split; [done | done | lia].
      * unfold getitem. by rewrite Hv.
    + unfold bind, emit. destruct i as [|i].
      { cbn in Hi. simplify_eq. rewrite Hmm in Hbad. by destruct Hbad. }
      apply IH. exists i, bad. repeat split; [done | done | lia].
Qed.

End MapTitles.

(** The metrics of one option when every known header is in range. *)
Lemma build_metrics_aligned (env opt : string) (mm : gmap string string)
    (pc : pid_cmd_user) (titles values : list string) (t : trace) :
  aligned mm (rewritten opt titles) values →
  (opt = "-class" → 3 < length titles) →
  build_metrics env opt (Some mm) pc titles values t
  = (inr (context_tokens env opt pc
          ++ concat (imap (emitted opt mm values) (rewritten opt titles))),
     t ++ (rewritten opt titles ≫= warned env opt mm)).
Proof.
  intros Hal Hclass. unfold build_metrics, bind.
  destruct (rewrite_titles_cases opt titles t) as [->|(-> & Hshort & _)].
  - rewrite map_titles_aligned; [done|].
    intros i title Hi Hknown. by apply (Hal i title).
  - specialize (Hclass eq_refl). lia.
Qed.

(** C7: for every category (option and mapping) and every header row, when
    each header the mapping knows has a value at its own position, the
    metrics list is the six context tokens followed by the contributions of
    the header positions in order, where a header at position [p] that is
    not in the mapping contributes no token and is logged as a warning, and
    a header at position [q] that is in the mapping contributes the single
    token pairing its long name with the value at the same position [q],
    whatever was skipped before it. *)
Theorem unmapped_header_skipped_alignment_kept (env opt : string)
    (mm : gmap string string) (pc : pid_cmd_user)
    (titles values : list string) (t : trace) :
  aligned mm (rewritten opt titles) values →
  (opt = "-class" → 3 < length titles) →
  ∃ (contrib : list (list string)) (warnings : list event),
    build_metrics env opt (Some mm) pc titles values t
    = (inr (context_tokens env opt pc ++ concat contrib), t ++ warnings)
    ∧ length contrib = length (rewritten opt titles)
    ∧ (∀ p title, rewritten opt titles !! p = Some title →
                  mm !! title = None →
                  contrib !! p = Some []
                  ∧ Log WARNING (ItemNotFound env opt title (Some mm))
                    ∈ warnings)
    ∧ (∀ q title long, rewritten opt titles !! q = Some title →
                       mm !! title = Some long →
                       ∃ value, values !! q = Some value
                                ∧ contrib !! q
                                  = Some [metric_token opt long value])
    ∧ (∀ ev, ev ∈ warnings →
             ∃ title, title ∈ rewritten opt titles ∧ mm !! title = None
                      ∧ ev = Log WARNING (ItemNotFound env opt title (Some mm))).
Proof.
  intros Hal Hclass.
  exists (imap (emitted opt mm values) (rewritten opt titles)),
         (rewritten opt titles ≫= warned env opt mm).
  split. { by apply build_metrics_aligned. }
  split. { apply length_imap. }
  split.
  { intros p title Hp Hnone. split.
    - rewrite list_lookup_imap, Hp. cbn. unfold emitted. by rewrite Hnone.
    - apply list_elem_of_bind. exists title. split.
      + unfold warned. rewrite Hnone. apply list_elem_of_singleton. done.
      + apply list_elem_of_lookup. by exists p. }
  split.
  { intros q title long Hq Hsome.
    destruct (lookup_lt_is_Some_2 values q) as [value Hv].
    { apply (Hal q title Hq). by exists long. }
    exists value. split; [done|].
    rewrite list_lookup_imap, Hq. cbn. unfold emitted. by rewrite Hsome, Hv. }
  intros ev Hev. apply list_elem_of_bind in Hev as (title & Hev & Hin).
  exists title. split; [done|]. unfold warned in Hev.
  destruct (mm !! title); [by apply elem_of_nil in Hev|].
  split; [done|]. by apply list_elem_of_singleton in Hev.
Qed.

Lemma unmapped_header_skipped_alignment_kept_witness :
  aligned metric_maps_gc (rewritten "-gc" ["S0C"; "XYZ"; "EC"]) ["1"; "2"; "3"]
  ∧ ("-gc" = "-class" → 3 < length ["S0C"; "XYZ"; "EC"])
  ∧ ∃ contrib warnings,
      build_metrics "prod" "-gc" (Some metric_maps_gc) ("1234", "java", "app")
        ["S0C"; "XYZ"; "EC"] ["1"; "2"; "3"] []
      = (inr (context_tokens "prod" "-gc" ("1234", "java", "app")
              ++ concat contrib), [] ++ warnings)
      ∧ contrib !! 0 = Some ["gc_current_survivor_space_0_capacity_kB=1"]
      ∧ contrib !! 1 = Some []
      ∧ contrib !! 2 = Some ["gc_current_eden_space_capacity_kB=3"].
Proof.
  assert (aligned metric_maps_gc (rewritten "-gc" ["S0C"; "XYZ"; "EC"])
            ["1"; "2"; "3"]) as Hal.
  { intros q title Hq _. apply lookup_lt_Some in Hq. exact Hq. }
  assert ("-gc" = "-class" → 3 < length ["S0C"; "XYZ"; "EC"]) as Hcl.
  { intros Heq. discriminate Heq. }
  split; [exact Hal|]. split; [exact Hcl|].
  destruct (unmapped_header_skipped_alignment_kept "prod" "-gc" metric_maps_gc
              ("1234", "java", "app") ["S0C"; "XYZ"; "EC"] ["1"; "2"; "3"] []
              Hal Hcl)
    as (contrib & warnings & Heq & _ & Hskip & Hmap & _).
  exists contrib, warnings. split; [exact Heq|].
  split.
  { destruct (Hmap 0 "S0C" "current_survivor_space_0_capacity_kB")
      as (value & Hv & Hc); [reflexivity | by vm_compute |].
    injection Hv as <-. exact Hc. }
  split.
  { apply (Hskip 1 "XYZ"); [reflexivity | by vm_compute]. }
  destruct (Hmap 2 "EC" "current_eden_space_capacity_kB")
    as (value & Hv & Hc); [reflexivity | by vm_compute |].
  injection Hv as <-. exact Hc.
Defined.

(** ** The gc category on its full header row *)

(** C4: on the 19-column gc header row and any values row of 19 tokens, the
    gc mapper returns exactly 25 tokens and logs nothing: the six context
    tokens application, environment, option, user, pid, command in that
    order, then for each header position the token [gc_<long name>=<value>]
    with the long name the gc mapping gives the header and the value at the
    same position of the values row. *)
Theorem gc_full_row_25_tokens (env pid cmd user : string)
    (values : list string) (t : trace) :
  length values = 19 →
  ∃ metrics,
    build_metrics env "-gc" (Some metric_maps_gc) (pid, cmd, user)
      gc_header values t = (inr metrics, t)
    ∧ (select_metric_maps env "-gc" t).1 = inr (Some metric_maps_gc)
    ∧ length metrics = 25
    ∧ take 6 metrics
      = [ "application=jstatmon"; "environment=" +:+ env; "option=-gc";
          "user=" +:+ user; "pid=" +:+ pid; "command=" +:+ cmd ]
    ∧ length (drop 6 metrics) = 19
    ∧ ∀ i header value,
        gc_header !! i = Some header → values !! i = Some value →
        ∃ long, metric_maps_gc !! header = Some long
                ∧ metrics !! (6 + i)
                  = Some ("gc_" +:+ long +:+ "=" +:+ value).
Proof.
  intros Hlen.
  do 19 (destruct values as [|? values]; [discriminate Hlen|]).
  destruct values; [|discriminate Hlen]. clear Hlen.
  eexists. split; [vm_compute; reflexivity|].
  split; [reflexivity|]. split; [reflexivity|]. split; [reflexivity|].
  split; [reflexivity|].
  intros i header value Hh Hv.
  do 19 (destruct i as [|i];
         [cbn in Hh, Hv; simplify_eq; eexists; split;
          vm_compute; reflexivity|]).
  discriminate Hh.
Qed.

Lemma gc_full_row_25_tokens_witness :
  length ["0.0"; "1024.0"; "0.0"; "512.5"; "8192.0"; "4096.3"; "20480.0";
          "10240.1"; "4864.0"; "4480.2"; "512.0"; "448.9"; "0.0"; "0.0";
          "12"; "0.105"; "2"; "0.250"; "0.355"] = 19
  ∧ ∃ metrics,
      build_metrics "prod" "-gc" (Some metric_maps_gc) ("1234", "java", "app")
        gc_header
        ["0.0"; "1024.0"; "0.0"; "512.5"; "8192.0"; "4096.3"; "20480.0";
         "10240.1"; "4864.0"; "4480.2"; "512.0"; "448.9"; "0.0"; "0.0";
         "12"; "0.105"; "2"; "0.250"; "0.355"] [] = (inr metrics, [])
      ∧ length metrics = 25
      ∧ metrics !! 24 = Some "gc_total_garbage_collection_time=0.355".
Proof.
  split; [reflexivity|].
  destruct (gc_full_row_25_tokens "prod" "1234" "java" "app"
              ["0.0"; "1024.0"; "0.0"; "512.5"; "8192.0"; "4096.3"; "20480.0";
               "10240.1"; "4864.0"; "4480.2"; "512.0"; "448.9"; "0.0"; "0.0";
               "12"; "0.105"; "2"; "0.250"; "0.355"] [] eq_refl)
    as (metrics & Heq & _ & Hlen & _ & _ & Hmap).
  exists metrics. split; [exact Heq|]. split; [exact Hlen|].
  destruct (Hmap 18 "GCT" "0.355" eq_refl eq_refl) as (long & Hlong & Hm).
  vm_compute in Hlong. injection Hlong as <-. exact Hm.
Defined.

(** ** Lines of a captured output *)

Lemma split_nonempty (sep : ascii) (s : string) : 1 ≤ length (Py.split sep s).
Proof.
  induction s as [|c s IH]; cbn; [lia|].
  destruct (Ascii.eqb c sep); cbn; [lia|].
  destruct (Py.split sep s); cbn in *; lia.
Qed.

Lemma split_length_cons (sep c : ascii) (s : string) :
  length (Py.split sep (String c s))
  = (if Ascii.eqb c sep then 1 else 0) + length (Py.split sep s).
Proof.
  pose proof (split_nonempty sep s) as Hne. cbn [Py.split].
  destruct (Ascii.eqb c sep); [done|].
  destruct (Py.split sep s); cbn in *; lia.
Qed.

Lemma split_length_lstrip (sep : ascii) (p : ascii → bool) (s : string) :
  length (Py.split sep (Py.lstrip_by p s)) ≤ length (Py.split sep s).
Proof.
  induction s as [|c s IH]; [done|].
  cbn [Py.lstrip_by]. destruct (p c); [|done].
  rewrite (split_length_cons sep c s). lia.
Qed.

Lemma split_length_rstrip (sep : ascii) (p : ascii → bool) (s : string) :
  length (Py.split sep (Py.rstrip_by p s)) ≤ length (Py.split sep s).
Proof.
  induction s as [|c s IH]; [done|].
  pose proof (split_nonempty sep s) as Hne.
  cbn [Py.rstrip_by]. rewrite (split_length_cons sep c s).
  destruct (Py.rstrip_by p s) as [|c' r] eqn:Hr.
  - destruct (p c).
    + cbn. lia.
    + rewrite split_length_cons. cbn [Py.split length]. lia.
  - rewrite split_length_cons. lia.
Qed.

(** Stripping never adds a line. *)
Lemma split_length_strip (s : string) :
  length (Py.split newline (Py.strip s)) ≤ length (Py.split newline s).
Proof.
  unfold Py.strip.
  etrans; [apply split_length_rstrip | apply split_length_lstrip].
Qed.

(** ** Partiality of the statistics parser *)

(** When the loop returns, every known header had its value. *)
Lemma map_titles_returns_aligned (env opt : string) (mm : gmap string string)
    (values : list string) (titles : list string) :
  ∀ (position : nat) (metrics : list string) (t : trace) res t',
    map_titles env opt (Some mm) values position titles metrics t
    = (inr res, t') →
    ∀ i title, titles !! i = Some title → is_Some (mm !! title) →
               position + i < length values.
Proof.
  induction titles as [|title rest IH];
    intros position metrics t res t' Hret i known Hi Hknown; [done|].
  cbn [map_titles] in Hret.
  destruct (mm !! title) as [long|] eqn:Hmm.
  - unfold bind in Hret. destruct (values !! position) as [value|] eqn:Hv.
    + rewrite (getitem_ok _ _ _ _ Hv) in Hret. destruct i as [|i].
      * apply lookup_lt_Some in Hv. lia.
      * specialize (IH _ _ _ _ _ Hret i known Hi Hknown). lia.
    + unfold getitem in Hret. rewrite Hv in Hret. discriminate Hret.
  - unfold bind, emit in Hret. destruct i as [|i].
    + cbn in Hi. simplify_eq. rewrite Hmm in Hknown. by destruct Hknown.
    + specialize (IH _ _ _ _ _ Hret i known Hi Hknown). lia.
Qed.

(** The parser returns when the stripped output has a header line and a
    values line, the header row of the class category has its four columns,
    and every known header has its value. *)
Lemma parse_stats_returns (env opt : string) (mm : gmap string string)
    (pc : pid_cmd_user) (stdout titles_line values_line : string)
    (t : trace) :
  Py.split newline (Py.strip stdout) !! 0 = Some titles_line →
  Py.split newline (Py.strip stdout) !! 1 = Some values_line →
  (opt = "-class" → 3 < length (Py.fields titles_line)) →
  aligned mm (rewritten opt (Py.fields titles_line)) (Py.fields values_line) →
  ∃ metrics t',
    parse_stats env opt (Some mm) pc stdout t = (inr metrics, t').
Proof.
  intros H0 H1 Hclass Hal. unfold parse_stats, bind.
  rewrite (getitem_ok _ _ _ _ H1), (getitem_ok _ _ _ _ H0).
  rewrite build_metrics_aligned by done. eauto.
Qed.

(** C10: the statistics parser returns only when the captured standard
    output has at least two newline-separated lines and the values row has
    a token at every position whose header is in the active mapping.  When
    the output has fewer than two lines the parser raises [IndexError], and
    when a header in the mapping sits at a position beyond the values row
    it raises [IndexError] as well: no degraded result is produced. *)
Theorem parse_stats_partial (env opt : string) (mm : gmap string string)
    (pc : pid_cmd_user) (stdout : string) (t : trace) :
  let lines := Py.split newline (Py.strip stdout) in
  (∀ metrics t',
     parse_stats env opt (Some mm) pc stdout t = (inr metrics, t') →
     2 ≤ length (Py.split newline stdout)
     ∧ ∃ titles_line values_line,
         lines !! 0 = Some titles_line ∧ lines !! 1 = Some values_line
         ∧ aligned mm (rewritten opt (Py.fields titles_line))
                      (Py.fields values_line))
  ∧ (length (Py.split newline stdout) < 2 →
     parse_stats env opt (Some mm) pc stdout t = (inl IndexError, t))
  ∧ (∀ titles_line values_line q title,
       lines !! 0 = Some titles_line → lines !! 1 = Some values_line →
       rewritten opt (Py.fields titles_line) !! q = Some title →
       is_Some (mm !! title) →
       length (Py.fields values_line) ≤ q →
       (parse_stats env opt (Some mm) pc stdout t).1 = inl IndexError).
Proof.
  intros lines. pose proof (split_length_strip stdout) as Hstrip.
  fold lines in Hstrip. split; [|split].
  - intros metrics t' Hret. unfold parse_stats, bind in Hret. fold lines in Hret.
    destruct (lines !! 1) as [values_line|] eqn:H1.
    2: { unfold getitem in Hret. rewrite H1 in Hret. discriminate Hret. }
    pose proof (lookup_lt_Some _ _ _ H1) as Hlen.
    destruct (lookup_lt_is_Some_2 lines 0) as [titles_line H0]; [lia|].
    rewrite (getitem_ok _ _ _ _ H1), (getitem_ok _ _ _ _ H0) in Hret.
    split; [lia|]. exists titles_line, values_line. do 2 (split; [done|]).
    unfold build_metrics, bind in Hret.
    destruct (rewrite_titles_cases opt (Py.fields titles_line) t)
      as [Hrw|(_ & _ & Hrw)]; rewrite Hrw in Hret; [|discriminate Hret].
    intros q title Hq Hknown.
    apply (map_titles_returns_aligned _ _ _ _ _ _ _ _ _ _ Hret q title Hq Hknown).
  - intros Hshort. unfold parse_stats, bind. fold lines.
    rewrite getitem_raises; [done | lia].
  - intros titles_line values_line q title H0 H1 Hq Hknown Hbeyond.
    unfold parse_stats, bind. fold lines.
    rewrite (getitem_ok _ _ _ _ H1), (getitem_ok _ _ _ _ H0).
    unfold build_metrics, bind.
    destruct (rewrite_titles_cases opt (Py.fields titles_line) t)
      as [Hrw|(_ & _ & Hrw)]; rewrite Hrw; [|done].
    apply map_titles_misaligned. by exists q, title.
Qed.

(** The compiler category on what the tool prints when no compilation has
    failed (the last column is blank), an output of one line, and a class
    header of two columns: each raises [IndexError]. *)
Example parse_stats_raises :
  (parse_stats "prod" "-compiler" (Some metric_maps_compiler)
     ("1234", "java", "app")
     (two_lines "Compiled Failed Invalid   Time   FailedType FailedMethod"
                "    1849      0       0     1.98          0") []).1
  = inl IndexError
  ∧ (parse_stats "prod" "-gc" (Some metric_maps_gc) ("1234", "java", "app")
       "1234 not found" []).1 = inl IndexError
  ∧ (parse_stats "prod" "-class" (Some metric_maps_class)
       ("1234", "java", "app") (two_lines "Loaded Bytes" "3070 5850.4") []).1
    = inl IndexError.
Proof. by vm_compute. Qed.

(** ** The executable locator *)

Lemma rstrip_empty_all_sep (s : string) :
  Py.rstrip_by (Ascii.eqb PosixPath.sep) s = EmptyString →
  PosixPath.all_sep s = true.
Proof.
  induction s as [|c s IH]; [done|]. cbn [Py.rstrip_by PosixPath.all_sep].
  destruct (Py.rstrip_by (Ascii.eqb PosixPath.sep) s); [|done].
  rewrite (Ascii.eqb_sym c). destruct (Ascii.eqb PosixPath.sep c); [|done].
  intros _. by rewrite IH.
Qed.

Lemma rstrip_truthy (s : string) :
  PosixPath.all_sep s = false →
  Py.truthy (Py.rstrip_by (Ascii.eqb PosixPath.sep) s) = true.
Proof.
  intros Hall.
  destruct (Py.rstrip_by (Ascii.eqb PosixPath.sep) s) eqn:Hr; [|done].
  apply rstrip_empty_all_sep in Hr. congruence.
Qed.

Lemma split_go_head_truthy (p : string) :
  Py.truthy (PosixPath.split_go p).1 = PosixPath.contains PosixPath.sep p.
Proof.
  induction p as [|c p IH]; [done|]. cbn [PosixPath.split_go PosixPath.contains].
  destruct (PosixPath.contains PosixPath.sep p).
  - destruct (PosixPath.split_go p). cbn. by rewrite orb_true_r.
  - rewrite orb_false_r. by destruct (Ascii.eqb c PosixPath.sep).
Qed.

(** The head of [split] is non-empty exactly when the name has a slash. *)
Lemma split_head_truthy (p : string) :
  Py.truthy (PosixPath.split p).1 = PosixPath.contains PosixPath.sep p.
Proof.
  rewrite <- split_go_head_truthy. unfold PosixPath.split.
  destruct (PosixPath.split_go p) as [head tail]. cbn [fst].
  destruct (Py.truthy head) eqn:Hh; cbn [andb fst]; [|exact Hh].
  destruct (PosixPath.all_sep head) eqn:Hall; cbn [negb fst]; [exact Hh|].
  by apply rstrip_truthy.
Qed.

(** The search-path scan returns the first executable candidate. *)
Lemma which_scan_first (w : World) (program : string) (dirs : list string) :
  let candidates :=
    (λ dir, PosixPath.join (Py.strip_char dquote dir) program) <$> dirs in
  match which_scan w program dirs with
  | Some executable =>
      ∃ i, candidates !! i = Some executable
           ∧ _is_executable w executable = true
           ∧ ∀ j c, j < i → candidates !! j = Some c →
                    _is_executable w c = false
  | None => ∀ c, c ∈ candidates → _is_executable w c = false
  end.
Proof.
  induction dirs as [|dir dirs IH]; cbn.
  - intros c Hc. by apply elem_of_nil in Hc.
  - destruct (_is_executable w (PosixPath.join (Py.strip_char dquote dir) program))
      eqn:Hx.
    + exists 0. split; [done|]. split; [done|]. intros j c Hj. lia.
    + cbn in IH. destruct (which_scan w program dirs) as [executable|].
      * destruct IH as (i & Hi & Hexec & Hfirst). exists (S i).
        split; [done|]. split; [done|].
        intros [|j] c Hj Hc; [by simplify_eq/=|].
        apply (Hfirst j c); [lia | done].
      * intros c Hc. apply elem_of_cons in Hc as [->|Hc]; [done|by apply IH].
Qed.

(** C5: the locator logs its start and then, for a name with a path
    separator, checks only that literal path and returns it exactly when it
    is a file with execute permission, whatever the search path holds; for a
    bare name, with the search path set, it joins each directory of the
    search path (in order, surrounding double quotes removed) with the name
    and returns the first joined path that is an executable file, even if
    a later directory has one too; when no candidate is executable it
    returns no result. *)
Theorem which_locates (w : World) (env program : string) (t : trace) :
  let started :=
    t ++ [Log DEBUG (Plain (msg env "start JStatmonClient._get_java_pids"))] in
  (∀ fpath, _is_executable w fpath = true
            ↔ isfile w fpath = true ∧ access_X_OK w fpath = true)
  ∧ (PosixPath.contains PosixPath.sep program = true →
     _which w env program t
     = (inr (if _is_executable w program then Some program else None),
        started))
  ∧ (PosixPath.contains PosixPath.sep program = false →
     ∀ path_env, environ_PATH w = Some path_env →
       let candidates :=
         (λ dir, PosixPath.join (Py.strip_char dquote dir) program)
           <$> Py.split PosixPath.pathsep path_env in
       ∃ r, _which w env program t = (inr r, started)
            ∧ match r with
              | Some executable =>
                  ∃ i, candidates !! i = Some executable
                       ∧ _is_executable w executable = true
                       ∧ ∀ j c, j < i → candidates !! j = Some c →
                                _is_executable w c = false
              | None => ∀ c, c ∈ candidates → _is_executable w c = false
              end
            ∧ ((∀ c, c ∈ candidates → _is_executable w c = false) →
               r = None)).
Proof.
  intros started. split; [|split].
  - intros fpath. unfold _is_executable. apply andb_true_iff.
  - intros Hsep. unfold _which, bind, debug, emit.
    pose proof (split_head_truthy program) as Hhead. rewrite Hsep in Hhead.
    destruct (PosixPath.split program) as [fpath fname]. cbn [fst] in Hhead.
    rewrite Hhead. by destruct (_is_executable w program).
  - intros Hbare path_env Hpath candidates.
    exists (which_scan w program (Py.split PosixPath.pathsep path_env)).
    split; [|split].
    + unfold _which, bind, debug, emit.
      pose proof (split_head_truthy program) as Hhead. rewrite Hbare in Hhead.
      destruct (PosixPath.split program) as [fpath fname]. cbn [fst] in Hhead.
      by rewrite Hhead, Hpath.
    + apply which_scan_first.
    + intros Hnone.
      pose proof (which_scan_first w program
                    (Py.split PosixPath.pathsep path_env)) as Hscan.
      cbv zeta in Hscan. fold candidates in Hscan.
      destruct (which_scan w program _) as [executable|]; [|done].
      destruct Hscan as (i & Hi & Hexec & _).
      rewrite (Hnone executable) in Hexec; [done|].
      apply list_elem_of_lookup. by exists i.
Qed.

(** With [jstat] in both directories of the search path, the first
    directory wins; a name with a slash is taken literally. *)
Example which_first_directory_wins :
  (_which host_two_jstat "prod" "jstat" []).1
  = inr (Some "/opt/java/bin/jstat")
  ∧ (_which host_two_jstat "prod" "/usr/bin/jstat" []).1
    = inr (Some "/usr/bin/jstat")
  ∧ (_which host_two_jstat "prod" "./jstat" []).1 = inr None
  ∧ (_which host_two_jstat "prod" "java" []).1 = inr None.
Proof. by vm_compute. Qed.

(** ** The run loops *)

(** One process with every tool in place: the run completes and emits one
    line per option, in the order of the option list. *)
Example run_healthy :
  (run host_healthy "prod" []).1 = inr tt
  ∧ logged INFO (run host_healthy "prod" []).2
    = [ Plain ("application=jstatmon environment=prod option=-gc user=app "
               +:+ "pid=1234 command=java -jar app.jar "
               +:+ "gc_current_survivor_space_0_capacity_kB=100 "
               +:+ "gc_current_survivor_space_1_capacity_kB=100 "
               +:+ "gc_current_eden_space_capacity_kB=2048 "
               +:+ "gc_current_old_space_capacity_kB=4096");
        Plain ("application=jstatmon environment=prod option=-gccapacity "
               +:+ "user=app pid=1234 command=java -jar app.jar "
               +:+ "gccapacity_minimum_new_generation_capacity_kB=10240.0 "
               +:+ "gccapacity_maximum_new_generation_capacity_kB=20480.0 "
               +:+ "gccapacity_current_new_generation_capacity_kB=15360.0");
        Plain ("application=jstatmon environment=prod option=-gcnew "
               +:+ "user=app pid=1234 command=java -jar app.jar "
               +:+ "gcnew_tenuring_threshold=6 "
               +:+ "gcnew_maximum_tenuring_threshold=15 "
               +:+ "gcnew_desired_survivor_size_kB=512.0");
        Plain ("application=jstatmon environment=prod option=-compiler "
               +:+ "user=app pid=1234 command=java -jar app.jar "
               +:+ "compiler_number_of_compilation_tasks_performed=1849 "
               +:+ "compiler_number_of_compilation_tasks_failed=0 "
               +:+ "compiler_number_of_compilation_tasks_that_were_invalidated=0 "
               +:+ "compiler_time_spent_performing_compilation_tasks=1.98 "
               +:+ "compiler_compile_type_of_the_last_failed_compilation=1 "
               +:+ "compiler_class_name_and_method_of_the_last_failed_compilation=Foo.bar");
        Plain ("application=jstatmon environment=prod option=-class "
               +:+ "user=app pid=1234 command=java -jar app.jar "
               +:+ "class_number_of_classes_loaded=3070 "
               +:+ "class_number_of_kBs_loaded=5850.4 "
               +:+ "class_number_of_classes_unloaded=0 "
               +:+ "class_number_of_kBs_unloaded=0.0 "
               +:+ "class_time_spent_performing_class_loading_and_unloading_operations=1.69") ]
  ∧ logged WARNING (run host_healthy "prod" []).2 = []
  ∧ logged ERROR (run host_healthy "prod" []).2 = [].
Proof. by vm_compute. Qed.

Section Run.

Context (w : World) (env : string).

(** The locator only appends its start message to the trace. *)
Lemma which_trace (program : string) (t : trace) :
  _which w env program t
  = ((_which w env program []).1,
     t ++ [Log DEBUG (Plain (msg env "start JStatmonClient._get_java_pids"))]).
Proof.
  unfold _which, bind, debug, emit, raise, ret.
  destruct (PosixPath.split program) as [fpath fname].
  destruct (Py.truthy fpath).
  - by destruct (_is_executable w program).
  - by destruct (environ_PATH w).
Qed.

Lemma join_truthy (a b : string) :
  Py.truthy b = true → Py.truthy (PosixPath.join a b) = true.
Proof.
  intros Hb. unfold PosixPath.join.
  destruct (PosixPath.startswith_sep b); [done|].
  destruct (negb (Py.truthy a) || PosixPath.endswith_sep a).
  - destruct a; [done | reflexivity].
  - destruct a; reflexivity.
Qed.

Lemma which_scan_truthy (program : string) (dirs : list string) (e : string) :
  Py.truthy program = true →
  which_scan w program dirs = Some e → Py.truthy e = true.
Proof.
  intros Hp. induction dirs as [|dir dirs IH]; cbn; [done|].
  destruct (_is_executable w _); [|done].
  intros [= <-]. by apply join_truthy.
Qed.

(** A located executable is never the empty string. *)
Lemma which_found (program e : string) :
  Py.truthy program = true →
  (_which w env program []).1 = inr (Some e) →
  found (Some e) = Some e.
Proof.
  intros Hp. unfold _which, bind, debug, emit, raise, ret, found.
  destruct (PosixPath.split program) as [fpath fname].
  destruct (Py.truthy fpath).
  - destruct (_is_executable w program); cbn; [|done].
    intros [= <-]. by rewrite Hp.
  - destruct (environ_PATH w) as [path_env|]; cbn; [|done].
    intros [= Hscan]. by rewrite (which_scan_truthy _ _ _ Hp Hscan).
Qed.

(** Without [jstat], the statistics stage logs an error and returns
    [None]. *)
Lemma jstat_details_not_found (pc : pid_cmd_user) (t : trace) :
  (_which w env "jstat" []).1 = inr None →
  _jstat_details w env pc t
  = (inr None,
     t ++ [ Log DEBUG (Plain (msg env "start JStatmonClient._jstat_details"));
            Log DEBUG (Plain (msg env "start JStatmonClient._get_java_pids"));
            Log ERROR (Plain (msg env "failed to find jstat executable")) ]).
Proof.
  intros Hw. unfold _jstat_details, bind, debug, emit.
  rewrite which_trace, Hw. cbn. by rewrite <- !app_assoc.
Qed.

(** ... and the second loop of [run] then iterates over [None]. *)
Lemma collect_all_not_found (pc : pid_cmd_user) (rest : list pid_cmd_user)
    (t : trace) :
  (_which w env "jstat" []).1 = inr None →
  collect_all w env (pc :: rest) t
  = (inl TypeError,
     t ++ [ Log DEBUG (Plain (msg env "start JStatmonClient._jstat_details"));
            Log DEBUG (Plain (msg env "start JStatmonClient._get_java_pids"));
            Log ERROR (Plain (msg env "failed to find jstat executable")) ]).
Proof.
  intros Hw. cbn [collect_all]. unfold bind.
  by rewrite (jstat_details_not_found pc t Hw).
Qed.

(** With [jstat] located and the owner unknown to the password database,
    the statistics stage raises [KeyError] in its first iteration, before
    any subprocess is launched. *)
Lemma jstat_details_unknown_user (jstat pid cmd user : string)
    (cmd_array : list string) (t : trace) :
  (_which w env "jstat" []).1 = inr (Some jstat) →
  Shlex.split (jstat +:+ " -gc " +:+ pid) = inr cmd_array →
  getpwnam w user = None →
  _jstat_details w env (pid, cmd, user) t
  = (inl (KeyError user),
     t ++ [ Log DEBUG (Plain (msg env "start JStatmonClient._jstat_details"));
            Log DEBUG (Plain (msg env "start JStatmonClient._get_java_pids"));
            Log DEBUG (Plain (msg env "-gc option identified")) ]).
Proof.
  intros Hw Hsplit Hpw. unfold _jstat_details, bind, debug, emit.
  rewrite which_trace, Hw. cbn [fst].
  rewrite (which_found "jstat" jstat eq_refl Hw).
  unfold options. cbn [jstat_options]. unfold bind, jstat_option.
  unfold select_metric_maps, shlex_split, bind, debug, emit, ret, raise.
  cbn [String.eqb Ascii.eqb Bool.eqb].
  change (jstat +:+ " " +:+ "-gc" +:+ " " +:+ pid)
    with (jstat +:+ " -gc " +:+ pid).
  rewrite Hsplit, Hpw. by rewrite <- !app_assoc.
Qed.

Lemma collect_all_app (done rest : list pid_cmd_user) (t t1 : trace) :
  collect_all w env done t = (inr tt, t1) →
  collect_all w env (done ++ rest) t = collect_all w env rest t1.
Proof.
  revert t. induction done as [|pc done IH]; intros t Hdone.
  - cbn in Hdone. unfold ret in Hdone. by simplify_eq.
  - cbn [collect_all app] in *. unfold bind in *.
    destruct (_jstat_details w env pc t) as [[e|metrics] t']; [done|].
    destruct (match metrics with
              | Some ms => interpret_all ms
              | None => raise TypeError
              end t') as [[e|[]] t'']; [done|].
    by apply IH.
Qed.

(** The first loop of [run] only ever extends the list it was given. *)
Lemma inspect_all_extends (pids : list string) :
  ∀ (pid_cmd res : list pid_cmd_user) (t t' : trace),
    inspect_all w env pids pid_cmd t = (inr res, t') →
    ∃ more, res = pid_cmd ++ more.
Proof.
  induction pids as [|pid pids IH]; intros pid_cmd res t t' Hres.
  - cbn in Hres. unfold ret in Hres. simplify_eq.
    exists []. by rewrite app_nil_r.
  - cbn [inspect_all] in Hres. unfold bind in Hres.
    destruct (_pid_to_command w env pid t) as [[e|[it|]] t1]; [done| |].
    + apply IH in Hres as [more ->]. exists (it :: more).
      by rewrite <- app_assoc.
    + unfold emit in Hres. by apply IH in Hres.
Qed.

End Run.

(** C1: on a host with one Java process and no [jstat] on the search
    path, the statistics stage logs its error and returns [None], and the
    run then ends in [TypeError] instead of completing. *)
Theorem missing_jstat_crashes_run :
  _jstat_details host_no_jstat "prod" ("42", "java -jar app.jar", "app") []
  = (inr None,
     [ Log DEBUG (Plain (msg "prod" "start JStatmonClient._jstat_details"));
       Log DEBUG (Plain (msg "prod" "start JStatmonClient._get_java_pids"));
       Log ERROR (Plain (msg "prod" "failed to find jstat executable")) ])
  ∧ (inspect_all host_no_jstat "prod" ["42"] [] []).1
    = inr [("42", "java -jar app.jar", "app")]
  ∧ (run host_no_jstat "prod" []).1 = inl TypeError
  ∧ logged ERROR (run host_no_jstat "prod" []).2
    = [Plain (msg "prod" "failed to find jstat executable")]
  ∧ last (run host_no_jstat "prod" []).2
    = Some (Log ERROR (Plain (msg "prod" "failed to find jstat executable"))).
Proof. by vm_compute. Qed.

(** C2, as stated, fails: with three Java processes of which the second
    is owned by a name without an account, the five lines of the first
    process are emitted and the run then ends in [KeyError]; the statistics
    tool is never launched for the third process, whose owner does have an
    account. *)
Lemma ghost_user_aborts_whole_run :
  (inspect_all host_ghost_user "prod" ["41"; "42"; "43"] [] []).1
  = inr [ ("41", "java -jar first.jar", "app");
          ("42", "java -jar ghost.jar", "ghost");
          ("43", "java -jar third.jar", "app") ]
  ∧ getpwnam host_ghost_user "ghost" = None
  ∧ getpwnam host_ghost_user "app" = Some {| pw_uid := 1000; pw_gid := 100 |}
  ∧ (run host_ghost_user "prod" []).1 = inl (KeyError "ghost")
  ∧ length (logged INFO (run host_ghost_user "prod" []).2) = 5
  ∧ spawned (run host_ghost_user "prod" []).2
    = [ "/usr/bin/pgrep java";
        "/usr/bin/ps -p 41 -o command="; "/usr/bin/ps -p 41 -o user=";
        "/usr/bin/ps -p 42 -o command="; "/usr/bin/ps -p 42 -o user=";
        "/usr/bin/ps -p 43 -o command="; "/usr/bin/ps -p 43 -o user=";
        "/usr/bin/jstat -gc 41"; "/usr/bin/jstat -gccapacity 41";
        "/usr/bin/jstat -gcnew 41"; "/usr/bin/jstat -compiler 41";
        "/usr/bin/jstat -class 41" ].
Proof. by vm_compute. Qed.

(** C2, amended: when the owner of a process has no account, the
    statistics stage raises [KeyError] for it before launching anything,
    and the exception leaves [run]: the processes before it in the list
    have been collected, the run's trace ends at that process, and the
    processes after it are not collected. *)
Theorem unresolved_user_aborts_run (w : World) (env : string)
    (pids : list string) (done rest : list pid_cmd_user)
    (pid cmd user jstat : string) (cmd_array : list string)
    (t t1 t2 t3 : trace) :
  _get_java_pids w env
    (t ++ [Log DEBUG (Plain (msg env "start JStatmonClient.run"))])
  = (inr (Some pids), t1) →
  inspect_all w env pids []
    (t1 ++ [Log DEBUG (Plain (msg env ("retrieved java pids pids="
                                       +:+ Py.join ", " pids)))])
  = (inr (done ++ (pid, cmd, user) :: rest), t2) →
  collect_all w env done t2 = (inr tt, t3) →
  (_which w env "jstat" []).1 = inr (Some jstat) →
  Shlex.split (jstat +:+ " -gc " +:+ pid) = inr cmd_array →
  getpwnam w user = None →
  let stopped :=
    t3 ++ [ Log DEBUG (Plain (msg env "start JStatmonClient._jstat_details"));
            Log DEBUG (Plain (msg env "start JStatmonClient._get_java_pids"));
            Log DEBUG (Plain (msg env "-gc option identified")) ] in
  _jstat_details w env (pid, cmd, user) t3 = (inl (KeyError user), stopped)
  ∧ run w env t = (inl (KeyError user), stopped).
Proof.
  intros Hpids Hinspect Hdone Hjstat Hsplit Hpw stopped.
  pose proof (jstat_details_unknown_user w env jstat pid cmd user cmd_array t3
                Hjstat Hsplit Hpw) as Hraise.
  split; [exact Hraise|].
  unfold run, bind, debug, emit. rewrite Hpids.
  destruct pids as [|p pids].
  { cbn in Hinspect. unfold ret in Hinspect.
    by destruct done; simplify_eq/=. }
  cbn [Py.nonempty]. rewrite Hinspect.
  rewrite (collect_all_app w env done _ t2 t3 Hdone).
  cbn [collect_all]. unfold bind. by rewrite Hraise.
Qed.

Lemma unresolved_user_aborts_run_witness :
  (collect_all host_ghost_user "prod" [("41", "java -jar first.jar", "app")]
     []).1 = inr tt
  ∧ (_which host_ghost_user "prod" "jstat" []).1 = inr (Some "/usr/bin/jstat")
  ∧ Shlex.split "/usr/bin/jstat -gc 42" = inr ["/usr/bin/jstat"; "-gc"; "42"]
  ∧ getpwnam host_ghost_user "ghost" = None
  ∧ run host_ghost_user "prod" []
    = (inl (KeyError "ghost"), (run host_ghost_user "prod" []).2)
  ∧ length (logged INFO (run host_ghost_user "prod" []).2) = 5.
Proof.
  split; [by vm_compute|]. split; [reflexivity|]. split; [reflexivity|].
  split; [reflexivity|]. split; [|by vm_compute].
  pose proof (unresolved_user_aborts_run host_ghost_user "prod"
                ["41"; "42"; "43"]
                [("41", "java -jar first.jar", "app")]
                [("43", "java -jar third.jar", "app")]
                "42" "java -jar ghost.jar" "ghost" "/usr/bin/jstat"
                ["/usr/bin/jstat"; "-gc"; "42"] []
                _ _ _ eq_refl eq_refl eq_refl eq_refl eq_refl eq_refl)
    as [_ Hrun].
  rewrite Hrun. reflexivity.
Defined.

(** C3, as stated, fails: for a process that is gone when [ps] is asked,
    inspection returns the reference with empty command and user, the
    first loop of [run] keeps it without any warning, and the statistics
    stage then raises [KeyError] on the empty user name, which ends the
    run. *)
Lemma evaporated_process_not_filtered :
  (_pid_to_command host_evaporated "prod" "42" []).1
  = inr (Some ("42", EmptyString, EmptyString))
  ∧ (inspect_all host_evaporated "prod" ["42"] [] []).1
    = inr [("42", EmptyString, EmptyString)]
  ∧ logged WARNING (run host_evaporated "prod" []).2 = []
  ∧ (_jstat_details host_evaporated "prod"
       ("42", EmptyString, EmptyString) []).1
    = inl (KeyError EmptyString)
  ∧ (run host_evaporated "prod" []).1 = inl (KeyError EmptyString).
Proof. by vm_compute. Qed.

(** C3, amended: when [ps] is located and prints nothing but white space
    for a PID, inspection does not fail: it returns the reference with that
    PID and empty command and user, logging no warning, and the first loop
    of [run] appends this reference to the list handed to the statistics
    stage. *)
Theorem evaporated_pid_kept (w : World) (env pid ps : string)
    (argv1 argv2 : list string) (out1 err1 out2 err2 : string) (t : trace) :
  (_which w env "ps" []).1 = inr (Some ps) →
  Shlex.split (ps +:+ " -p " +:+ pid +:+ " -o command=") = inr argv1 →
  popen w argv1 None = inr (out1, err1) →
  Py.strip out1 = EmptyString →
  Shlex.split (ps +:+ " -p " +:+ pid +:+ " -o user=") = inr argv2 →
  popen w argv2 None = inr (out2, err2) →
  Py.strip out2 = EmptyString →
  ∃ evs,
    _pid_to_command w env pid t
    = (inr (Some (pid, EmptyString, EmptyString)), t ++ evs)
    ∧ logged WARNING evs = []
    ∧ (∀ rest pid_cmd,
         inspect_all w env (pid :: rest) pid_cmd t
         = inspect_all w env rest
             (pid_cmd ++ [(pid, EmptyString, EmptyString)]) (t ++ evs))
    ∧ (∀ rest pid_cmd res t',
         inspect_all w env (pid :: rest) pid_cmd t = (inr res, t') →
         (pid, EmptyString, EmptyString) ∈ res).
Proof.
  intros Hps Hargv1 Hcmd Hstrip1 Hargv2 Huser Hstrip2.
  assert (∃ evs,
            _pid_to_command w env pid t
            = (inr (Some (pid, EmptyString, EmptyString)), t ++ evs)
            ∧ logged WARNING evs = []) as (evs & Hitem & Hquiet).
  { unfold _pid_to_command, bind, debug, emit.
    rewrite which_trace, Hps. cbn [fst].
    rewrite (which_found w env "ps" ps eq_refl Hps).
    unfold shlex_split, Popen, bind, emit, ret, log_stderr.
    rewrite Hargv1, Hargv2, Hcmd, Huser, Hstrip1, Hstrip2.
    destruct (Py.truthy err1), (Py.truthy err2); unfold emit, ret;
      rewrite <- !app_assoc; eexists; (split; [reflexivity|]); reflexivity. }
  exists evs. split; [exact Hitem|]. split; [exact Hquiet|].
  assert (∀ rest pid_cmd,
            inspect_all w env (pid :: rest) pid_cmd t
            = inspect_all w env rest
                (pid_cmd ++ [(pid, EmptyString, EmptyString)]) (t ++ evs))
    as Hstep.
  { intros rest pid_cmd. cbn [inspect_all]. unfold bind. by rewrite Hitem. }
  split; [exact Hstep|].
  intros rest pid_cmd res t' Hres. rewrite Hstep in Hres.
  apply inspect_all_extends in Hres as [more ->].
  rewrite <- app_assoc. apply elem_of_app. right. apply elem_of_cons. by left.
Qed.

Lemma evaporated_pid_kept_witness :
  (_which host_evaporated "prod" "ps" []).1 = inr (Some "/usr/bin/ps")
  ∧ Shlex.split "/usr/bin/ps -p 42 -o command="
    = inr ["/usr/bin/ps"; "-p"; "42"; "-o"; "command="]
  ∧ popen host_evaporated ["/usr/bin/ps"; "-p"; "42"; "-o"; "command="] None
    = inr (EmptyString, EmptyString)
  ∧ Py.strip EmptyString = EmptyString
  ∧ ∃ evs,
      _pid_to_command host_evaporated "prod" "42" []
      = (inr (Some ("42", EmptyString, EmptyString)), [] ++ evs)
      ∧ logged WARNING evs = [].
Proof.
  do 4 (split; [reflexivity|]).
  destruct (evaporated_pid_kept host_evaporated "prod" "42" "/usr/bin/ps"
              ["/usr/bin/ps"; "-p"; "42"; "-o"; "command="]
              ["/usr/bin/ps"; "-p"; "42"; "-o"; "user="]
              EmptyString EmptyString EmptyString EmptyString []
              eq_refl eq_refl eq_refl eq_refl eq_refl eq_refl eq_refl)
    as (evs & Hitem & Hquiet & _).
  exists evs. split; [exact Hitem | exact Hquiet].
Defined.

(** ** The process enumerator *)

(** The tokens are the newline-separated pieces of the stripped output:
    one more than the number of newlines it holds, whatever the pieces
    are. *)
Lemma pids_of_stdout_nonempty (stdout : string) :
  1 ≤ length (pids_of_stdout stdout).
Proof. apply split_nonempty. Qed.

(** C9: when [pgrep] prints nothing, the enumerator returns a list holding
    one PID token, the empty string, and an empty line inside the output
    gives an empty token as well; on a host without Java processes the run
    therefore inspects the empty PID and ends in [KeyError]. *)
Theorem empty_output_yields_empty_pid :
  pids_of_stdout EmptyString = [EmptyString]
  ∧ pids_of_stdout ("41" +:+ String newline (String newline "42"))
    = ["41"; EmptyString; "42"]
  ∧ (_get_java_pids host_idle "prod" []).1 = inr (Some [EmptyString])
  ∧ spawned (run host_idle "prod" []).2
    = [ "/usr/bin/pgrep java";
        "/usr/bin/ps -p -o command="; "/usr/bin/ps -p -o user=" ]
  ∧ (run host_idle "prod" []).1 = inl (KeyError EmptyString).
Proof. by vm_compute. Qed.

(** ** Privilege demotion *)

Create HintDb keeps.

Section Keeps.

Context (w : World) (env : string).

Lemma keeps_ret {A} (a : A) : keeps w (ret a).
Proof. intros t. exists []. by rewrite app_nil_r. Qed.

Lemma keeps_raise {A} (e : exn) : keeps w (@raise A e).
Proof. intros t. exists []. by rewrite app_nil_r. Qed.

Lemma keeps_emit (ev : event) : demoted w ev → keeps w (emit ev).
Proof. intros Hev t. exists [ev]. split; [done|]. by apply Forall_singleton. Qed.

Lemma keeps_bind {A B} (m : M A) (k : A → M B) :
  keeps w m → (∀ a, keeps w (k a)) → keeps w (bind m k).
Proof.
  intros Hm Hk t. destruct (Hm t) as (evs1 & Ht1 & Hevs1). unfold bind.
  destruct (m t) as [[e|a] t1]; cbn in Ht1; subst t1.
  - by exists evs1.
  - destruct (Hk a (t ++ evs1)) as (evs2 & Ht2 & Hevs2).
    exists (evs1 ++ evs2). rewrite Ht2, app_assoc. split; [done|].
    by apply Forall_app.
Qed.

Lemma keeps_bind_ret {A B} (a : A) (k : A → M B) :
  keeps w (k a) → keeps w (bind (ret a) k).
Proof. intros Hk t. exact (Hk t). Qed.

Lemma keeps_bind_raise {A B} (e : exn) (k : A → M B) :
  keeps w (bind (raise e) k).
Proof. intros t. exists []. by rewrite app_nil_r. Qed.

Lemma keeps_log (lvl : level) (m : message) : keeps w (emit (Log lvl m)).
Proof. by apply keeps_emit. Qed.

Lemma keeps_getitem {A} (l : list A) (i : nat) : keeps w (getitem l i).
Proof.
  unfold getitem. destruct (l !! i); [apply keeps_ret | apply keeps_raise].
Qed.

Lemma keeps_setitem {A} (l : list A) (i : nat) (x : A) :
  keeps w (setitem l i x).
Proof.
  unfold setitem. case_decide; [apply keeps_ret | apply keeps_raise].
Qed.

Lemma keeps_log_stderr (stderr : string) : keeps w (log_stderr stderr).
Proof.
  unfold log_stderr. destruct (Py.truthy stderr);
    [apply keeps_log | apply keeps_ret].
Qed.

Lemma keeps_shlex_split (cmd : string) : keeps w (shlex_split cmd).
Proof.
  unfold shlex_split. destruct (Shlex.split cmd);
    [apply keeps_raise | apply keeps_ret].
Qed.

Lemma keeps_Popen (cmd_array : list string) (pre : option preexec_fn) :
  demoted w (Spawn cmd_array pre) → keeps w (Popen w cmd_array pre).
Proof.
  intros Hpre. unfold Popen. apply keeps_bind; [by apply keeps_emit|].
  intros _. destruct (popen w cmd_array pre);
    [apply keeps_raise | apply keeps_ret].
Qed.

Lemma keeps_Popen_plain (cmd_array : list string) :
  keeps w (Popen w cmd_array None).
Proof. by apply keeps_Popen. Qed.

Hint Resolve keeps_ret keeps_raise keeps_log keeps_getitem keeps_setitem
  keeps_log_stderr keeps_shlex_split keeps_Popen_plain : keeps.

(** Peel the binds of a method body, closing each step from the hint
    database and splitting the pair a step returns. *)
Ltac keeps_seq :=
  repeat (apply keeps_bind;
          [ solve [auto with keeps]
          | let x := fresh "x" in
            intros x;
            lazymatch type of x with
            | (_ * _)%type => destruct x
            | _ => idtac
            end ]);
  auto with keeps.

Lemma keeps_which (program : string) : keeps w (_which w env program).
Proof.
  unfold _which, debug. apply keeps_bind; [apply keeps_log|]. intros _.
  destruct (PosixPath.split program) as [fpath fname].
  destruct (Py.truthy fpath).
  - destruct (_is_executable w program); apply keeps_ret.
  - destruct (environ_PATH w); [apply keeps_ret | apply keeps_raise].
Qed.

Hint Resolve keeps_which : keeps.

Lemma keeps_get_java_pids : keeps w (_get_java_pids w env).
Proof.
  unfold _get_java_pids, debug. apply keeps_bind; [auto with keeps | intros _].
  apply keeps_bind; [auto with keeps | intros pgrep_executable].
  destruct (found pgrep_executable); keeps_seq.
Qed.

Lemma keeps_pid_to_command (pid : string) :
  keeps w (_pid_to_command w env pid).
Proof.
  unfold _pid_to_command, debug. apply keeps_bind; [auto with keeps | intros _].
  apply keeps_bind; [auto with keeps | intros ps_executable].
  destruct (found ps_executable); keeps_seq.
Qed.

Lemma keeps_select_metric_maps (opt : string) :
  keeps w (select_metric_maps env opt).
Proof.
  unfold select_metric_maps, debug.
  repeat (destruct (String.eqb opt _); [keeps_seq|]). keeps_seq.
Qed.

Lemma keeps_map_titles (opt : string) (mm : option (gmap string string))
    (values_all titles : list string) :
  ∀ position metrics,
    keeps w (map_titles env opt mm values_all position titles metrics).
Proof.
  induction titles as [|title rest IH]; intros position metrics;
    cbn [map_titles]; [apply keeps_ret|].
  destruct mm as [mm|]; [|apply keeps_raise].
  destruct (mm !! title).
  - apply keeps_bind; [apply keeps_getitem | intros value; apply IH].
  - apply keeps_bind; [apply keeps_log | intros _; apply IH].
Qed.

Lemma keeps_rewrite_titles (opt : string) (titles : list string) :
  keeps w (rewrite_titles opt titles).
Proof.
  unfold rewrite_titles. destruct (String.eqb opt "-class"); keeps_seq.
Qed.

Hint Resolve keeps_select_metric_maps keeps_map_titles keeps_rewrite_titles
  : keeps.

Lemma keeps_parse_stats (opt : string) (mm : option (gmap string string))
    (pc : pid_cmd_user) (stdout : string) :
  keeps w (parse_stats env opt mm pc stdout).
Proof. unfold parse_stats, build_metrics. keeps_seq. Qed.

(** The one launch that carries a pre-execution function: it is built by
    [_demote] from the password record of the process owner. *)
Lemma keeps_jstat_option (jstat : string) (pc : pid_cmd_user) (opt : string) :
  keeps w (jstat_option w env jstat pc opt).
Proof.
  destruct pc as [[pid cmd] user]. unfold jstat_option.
  do 2 (apply keeps_bind; [auto with keeps | intros ?]).
  destruct (getpwnam w user) as [record|] eqn:Hpw.
  - apply keeps_bind_ret.
    apply keeps_bind; [|intros [stdout stderr]].
    + apply keeps_Popen. by exists user, record.
    + apply keeps_bind; [apply keeps_log_stderr|]. intros _.
      apply keeps_parse_stats.
  - apply keeps_bind_raise.
Qed.

Lemma keeps_jstat_options (jstat : string) (pc : pid_cmd_user)
    (opts : list string) :
  ∀ stats, keeps w (jstat_options w env jstat pc opts stats).
Proof.
  induction opts as [|opt rest IH]; intros stats; cbn [jstat_options];
    [apply keeps_ret|].
  apply keeps_bind; [apply keeps_jstat_option | intros metrics; apply IH].
Qed.

Hint Resolve keeps_jstat_options : keeps.

Lemma keeps_jstat_details (pc : pid_cmd_user) :
  keeps w (_jstat_details w env pc).
Proof.
  unfold _jstat_details, debug. apply keeps_bind; [auto with keeps | intros _].
  apply keeps_bind; [auto with keeps | intros jstat_executable].
  destruct (found jstat_executable); keeps_seq.
Qed.

Lemma keeps_inspect_all (pids : list string) :
  ∀ pid_cmd, keeps w (inspect_all w env pids pid_cmd).
Proof.
  induction pids as [|pid rest IH]; intros pid_cmd; cbn [inspect_all];
    [apply keeps_ret|].
  apply keeps_bind; [apply keeps_pid_to_command|]. intros [it|]; [apply IH|].
  apply keeps_bind; [apply keeps_log | intros _; apply IH].
Qed.

Lemma keeps_interpret_all (metrics : list (list string)) :
  keeps w (interpret_all metrics).
Proof.
  induction metrics as [|metric rest IH]; cbn [interpret_all];
    [apply keeps_ret|].
  apply keeps_bind; [apply keeps_log | intros _; apply IH].
Qed.

Lemma keeps_collect_all (pid_cmd : list pid_cmd_user) :
  keeps w (collect_all w env pid_cmd).
Proof.
  induction pid_cmd as [|pc rest IH]; cbn [collect_all]; [apply keeps_ret|].
  apply keeps_bind; [apply keeps_jstat_details|]. intros metrics.
  apply keeps_bind; [|intros _; apply IH].
  destruct metrics; [apply keeps_interpret_all | apply keeps_raise].
Qed.

Hint Resolve keeps_get_java_pids keeps_inspect_all keeps_collect_all : keeps.

Lemma keeps_run : keeps w (run w env).
Proof.
  unfold run, debug. apply keeps_bind; [auto with keeps | intros _].
  apply keeps_bind; [auto with keeps | intros pids].
  apply keeps_bind; [|intros _; apply keeps_log].
  destruct pids as [pids|]; [|apply keeps_ret].
  destruct (Py.nonempty pids); keeps_seq.
Qed.

End Keeps.

(** C8: the pre-execution function built by [_demote] requests the group-id
    change first and the user-id change second.  Under any kernel, the
    requests it makes are [setgid] alone (when that is refused) or [setgid]
    followed by [setuid]; a [setuid] request is never made before the
    [setgid] request.  In a run, every launch that carries a pre-execution
    function carries this one, for the password record of some account. *)
Theorem demote_setgid_before_setuid (user_uid user_gid : Z)
    (grants : list syscall → syscall → bool) (granted : list syscall) :
  _demote user_uid user_gid !! 0 = Some (Setgid user_gid)
  ∧ _demote user_uid user_gid !! 1 = Some (Setuid user_uid)
  ∧ length (_demote user_uid user_gid) = 2
  ∧ (∃ reqs ok,
       call_preexec grants granted (_demote user_uid user_gid) = (reqs, ok)
       ∧ (reqs = [Setgid user_gid]
          ∨ reqs = [Setgid user_gid; Setuid user_uid])
       ∧ (∀ i uid, reqs !! i = Some (Setuid uid) →
                   ∃ j, j < i ∧ reqs !! j = Some (Setgid user_gid))
       ∧ (∀ i j gid uid, reqs !! i = Some (Setgid gid) →
                         reqs !! j = Some (Setuid uid) → i < j))
  ∧ (∀ (w : World) (env : string) (t : trace),
       ∃ evs, (run w env t).2 = t ++ evs
              ∧ ∀ cmd_array pre,
                  Spawn cmd_array (Some pre) ∈ evs →
                  ∃ user r, getpwnam w user = Some r
                            ∧ pre = _demote (pw_uid r) (pw_gid r)
                            ∧ pre = [Setgid (pw_gid r); Setuid (pw_uid r)]).
Proof.
  split; [reflexivity|]. split; [reflexivity|]. split; [reflexivity|].
  split.
  - unfold _demote; cbn [call_preexec].
    destruct (grants granted (Setgid user_gid)) eqn:Hg.
    + destruct (grants (granted ++ [Setgid user_gid]) (Setuid user_uid)).
      all: eexists _, _; split; [reflexivity|]; split; [by right|]; split.
      all: try (intros [|[|i]] uid Hi; simplify_eq/=;
                exists 0; split; [lia|done]).
      all: intros [|[|i]] [|[|j]] gid uid Hi Hj; simplify_eq/=; lia.
    + eexists _, _; split; [reflexivity|]; split; [by left|]; split.
      * intros [|i] uid Hi; simplify_eq/=.
      * intros [|i] [|j] gid uid Hi Hj; simplify_eq/=.
  - intros w env t. destruct (keeps_run w env t) as (evs & Ht & Hevs).
    exists evs. split; [exact Ht|]. intros cmd_array pre Hin.
    rewrite Forall_forall in Hevs. specialize (Hevs _ Hin).
    destruct Hevs as (user & r & Hpw & ->). by exists user, r.
Qed.


(** ** Token rows and lines *)

Lemma append_cons (c : ascii) (a b : string) :
  String c a +:+ b = String c (a +:+ b).
Proof. reflexivity. Qed.

Lemma append_empty_r (s : string) : s +:+ EmptyString = s.
Proof.
  induction s as [|c s IH]; [done|]. by rewrite append_cons, IH.
Qed.

Lemma append_assoc (a b c : string) : (a +:+ b) +:+ c = a +:+ (b +:+ c).
Proof.
  induction a as [|x a IH]; [done|]. by rewrite !append_cons, IH.
Qed.

Lemma word_cons (c : ascii) (s : string) :
  word (String c s) = true →
  Py.isspace c = false ∧ (s = EmptyString ∨ word s = true).
Proof.
  unfold word. cbn. intros [Hc Hs]%andb_true_iff.
  apply negb_true_iff in Hc. split; [done|]. destruct s; [by left|by right].
Qed.

Lemma fields_cons_cons (c c' : ascii) (s : string) :
  Py.isspace c = false → Py.isspace c' = false →
  Py.fields (String c (String c' s))
  = match Py.fields (String c' s) with
    | h :: t => String c h :: t
    | [] => [String c EmptyString]
    end.
Proof. intros Hc Hc'. cbn [Py.fields]. by rewrite Hc, Hc'. Qed.

(** [str.split()] takes a leading word off a text that goes on with white
    space, or ends. *)
Lemma fields_word_app (w rest : string) :
  word w = true →
  (rest = EmptyString ∨ ∃ c rest', rest = String c rest' ∧ Py.isspace c = true) →
  Py.fields (w +:+ rest) = w :: Py.fields rest.
Proof.
  intros Hw Hrest. induction w as [|c w IH]; [done|].
  apply word_cons in Hw as [Hc [->|Hw]].
  - change (String c EmptyString +:+ rest) with (String c rest).
    cbn [Py.fields]. rewrite Hc.
    destruct Hrest as [->|(c' & rest' & -> & Hc')]; [done|].
    by rewrite Hc'.
  - specialize (IH Hw). destruct w as [|c' w]; [done|].
    apply word_cons in Hw as [Hc' _].
    change (String c (String c' w) +:+ rest)
      with (String c (String c' (w +:+ rest))).
    rewrite fields_cons_cons by done.
    change (String c' (w +:+ rest)) with (String c' w +:+ rest).
    by rewrite IH.
Qed.

Lemma fields_join (tokens : list string) :
  Forall (λ w, word w = true) tokens →
  Py.fields (Py.join " " tokens) = tokens.
Proof.
  induction 1 as [|w tokens Hw Htokens IH]; [done|].
  destruct tokens as [|w' tokens].
  - cbn. rewrite <- (append_empty_r w) at 1.
    rewrite fields_word_app; [done | done | by left].
  - change (Py.join " " (w :: w' :: tokens))
      with (w +:+ String " " (Py.join " " (w' :: tokens))).
    rewrite fields_word_app; [|done|right; by eexists _, _].
    f_equal. exact IH.
Qed.

Lemma rstrip_cons (p : ascii → bool) (c : ascii) (s : string) :
  Py.rstrip_by p (String c s)
  = match Py.rstrip_by p s with
    | EmptyString => if p c then EmptyString else String c EmptyString
    | r => String c r
    end.
Proof. reflexivity. Qed.

Lemma lstrip_word_app (w rest : string) :
  word w = true → Py.lstrip_by Py.isspace (w +:+ rest) = w +:+ rest.
Proof.
  destruct w as [|c w]; [done|]. intros [Hc _]%word_cons.
  rewrite append_cons. cbn [Py.lstrip_by]. by rewrite Hc.
Qed.

Lemma rstrip_word (w : string) :
  word w = true → Py.rstrip_by Py.isspace w = w.
Proof.
  induction w as [|c w IH]; [done|]. intros [Hc [->|Hw]]%word_cons.
  - rewrite rstrip_cons. cbn [Py.rstrip_by]. by rewrite Hc.
  - rewrite rstrip_cons, (IH Hw). by destruct w.
Qed.

(** What ends in a text that right-stripping leaves alone is left alone. *)
Lemma rstrip_fixed_app (p : ascii → bool) (pre x : string) :
  Py.rstrip_by p x = x → x ≠ EmptyString →
  Py.rstrip_by p (pre +:+ x) = pre +:+ x.
Proof.
  intros Hx Hne. induction pre as [|c pre IH]; [done|].
  rewrite append_cons, rstrip_cons, IH.
  destruct (pre +:+ x) eqn:Happ; [|done].
  destruct pre; [done | discriminate Happ].
Qed.

Lemma rstrip_snoc (p : ascii → bool) (s : string) (c : ascii) :
  p c = true →
  Py.rstrip_by p (s +:+ String c EmptyString) = Py.rstrip_by p s.
Proof.
  intros Hc. induction s as [|a s IH].
  - change (EmptyString +:+ String c EmptyString) with (String c EmptyString).
    rewrite rstrip_cons. cbn [Py.rstrip_by]. by rewrite Hc.
  - by rewrite append_cons, !rstrip_cons, IH.
Qed.

Lemma split_cons (sep c : ascii) (s : string) :
  Py.split sep (String c s)
  = if Ascii.eqb c sep then EmptyString :: Py.split sep s
    else match Py.split sep s with
         | h :: t => String c h :: t
         | [] => [String c EmptyString]
         end.
Proof. reflexivity. Qed.

Lemma split_no_sep (sep : ascii) (a : string) :
  PosixPath.contains sep a = false → Py.split sep a = [a].
Proof.
  induction a as [|c a IH]; [done|]. cbn [PosixPath.contains].
  intros [Hc Ha]%orb_false_iff. by rewrite split_cons, Hc, (IH Ha).
Qed.

Lemma split_app_sep (sep : ascii) (a b : string) :
  PosixPath.contains sep a = false →
  Py.split sep (a +:+ String sep b) = a :: Py.split sep b.
Proof.
  induction a as [|c a IH].
  - intros _. change (EmptyString +:+ String sep b) with (String sep b).
    by rewrite split_cons, Ascii.eqb_refl.
  - cbn [PosixPath.contains]. intros [Hc Ha]%orb_false_iff.
    by rewrite append_cons, split_cons, Hc, (IH Ha).
Qed.

Lemma contains_app (ch : ascii) (a b : string) :
  PosixPath.contains ch (a +:+ b)
  = PosixPath.contains ch a || PosixPath.contains ch b.
Proof.
  induction a as [|c a IH]; [done|].
  rewrite append_cons. cbn [PosixPath.contains].
  by rewrite IH, orb_assoc.
Qed.

Lemma no_space_no_newline (s : string) :
  no_space s = true → PosixPath.contains newline s = false.
Proof.
  induction s as [|c s IH]; [done|]. cbn [no_space PosixPath.contains].
  intros [Hc Hs]%andb_true_iff. rewrite (IH Hs), orb_false_r.
  destruct (Ascii.eqb_spec c newline) as [->|]; [done | done].
Qed.

Lemma word_no_newline (w : string) :
  word w = true → PosixPath.contains newline w = false.
Proof.
  unfold word. intros [_ Hw]%andb_true_iff. by apply no_space_no_newline.
Qed.

Section Join.

Context (sep : string).

(** A joined list of words starts with a word, and right-stripping leaves
    it alone. *)
Lemma join_words (tokens : list string) :
  tokens ≠ [] → Forall (λ w, word w = true) tokens →
  Py.join sep tokens ≠ EmptyString
  ∧ Py.rstrip_by Py.isspace (Py.join sep tokens) = Py.join sep tokens
  ∧ ∃ w rest, word w = true ∧ Py.join sep tokens = w +:+ rest.
Proof.
  intros Hne Hall. induction Hall as [|w tokens Hw Hall IH]; [done|].
  destruct tokens as [|w' tokens].
  - cbn [Py.join]. split; [by destruct w|]. split; [by apply rstrip_word|].
    exists w, EmptyString. by rewrite append_empty_r.
  - destruct IH as (Hjne & Hfix & _); [done|].
    change (Py.join sep (w :: w' :: tokens))
      with (w +:+ sep +:+ Py.join sep (w' :: tokens)).
    split; [by destruct w|]. split; [|by eexists _, _].
    rewrite <- append_assoc. by apply rstrip_fixed_app.
Qed.

End Join.

Lemma join_space_no_newline (tokens : list string) :
  Forall (λ w, word w = true) tokens →
  PosixPath.contains newline (Py.join " " tokens) = false.
Proof.
  induction 1 as [|w tokens Hw Hall IH]; [done|].
  destruct tokens as [|w' tokens]; [by apply word_no_newline|].
  change (Py.join " " (w :: w' :: tokens))
    with (w +:+ String " " (Py.join " " (w' :: tokens))).
  rewrite contains_app, (word_no_newline w Hw). cbn [orb PosixPath.contains].
  by rewrite IH.
Qed.

Lemma split_join_newline (tokens : list string) :
  tokens ≠ [] → Forall (λ w, word w = true) tokens →
  Py.split newline (Py.join (String newline EmptyString) tokens) = tokens.
Proof.
  intros Hne Hall. induction Hall as [|w tokens Hw Hall IH]; [done|].
  destruct tokens as [|w' tokens].
  - cbn [Py.join]. apply split_no_sep. by apply word_no_newline.
  - change (Py.join (String newline EmptyString) (w :: w' :: tokens))
      with (w +:+ String newline
                    (Py.join (String newline EmptyString) (w' :: tokens))).
    rewrite split_app_sep by (by apply word_no_newline). by rewrite IH.
Qed.

(** Stripping an output whose lines are [body] followed by one newline,
    where [body] starts with a word and is left alone by right-stripping. *)
Lemma strip_body_newline (body : string) :
  (∃ w rest, word w = true ∧ body = w +:+ rest) →
  Py.rstrip_by Py.isspace body = body →
  Py.strip (body +:+ String newline EmptyString) = body.
Proof.
  intros (w & rest & Hw & ->) Hfix. unfold Py.strip.
  rewrite append_assoc, lstrip_word_app by done.
  rewrite <- append_assoc, rstrip_snoc by done. exact Hfix.
Qed.

(** ** Reading back what the tools print *)

(** X1: when [pgrep] is located, its command line splits and it prints one
    PID per line (each a non-empty token without white space, each line
    ended by a newline), the enumerator returns exactly those PIDs, in
    order, whatever was written to standard error. *)
Theorem get_java_pids_reads_lines (w : World) (env pgrep : string)
    (cmd_array pids : list string) (stderr : string) (t : trace) :
  (_which w env "pgrep" []).1 = inr (Some pgrep) →
  Shlex.split (pgrep +:+ " java") = inr cmd_array →
  pids ≠ [] →
  Forall (λ pid, word pid = true) pids →
  popen w cmd_array None
  = inr (Py.join (String newline EmptyString) pids
         +:+ String newline EmptyString, stderr) →
  (_get_java_pids w env t).1 = inr (Some pids).
Proof.
  intros Hw Hsplit Hne Hwords Hout.
  unfold _get_java_pids, bind, debug, emit.
  rewrite which_trace, Hw. cbn [fst].
  rewrite (which_found w env "pgrep" pgrep eq_refl Hw).
  unfold shlex_split, Popen, bind, emit, ret. rewrite Hsplit, Hout.
  destruct (log_stderr stderr _) as [[e|[]] t1] eqn:Hlog.
  { unfold log_stderr, emit, ret in Hlog. by destruct (Py.truthy stderr). }
  cbn [fst]. do 2 f_equal. unfold pids_of_stdout.
  destruct (join_words (String newline EmptyString) pids Hne Hwords)
    as (_ & Hfix & Hstart).
  rewrite strip_body_newline by done. by apply split_join_newline.
Qed.

Lemma get_java_pids_reads_lines_witness :
  (_which host_ghost_user "prod" "pgrep" []).1 = inr (Some "/usr/bin/pgrep")
  ∧ Shlex.split "/usr/bin/pgrep java" = inr ["/usr/bin/pgrep"; "java"]
  ∧ Forall (λ pid, word pid = true) ["41"; "42"; "43"]
  ∧ (_get_java_pids host_ghost_user "prod" []).1
    = inr (Some ["41"; "42"; "43"]).
Proof.
  assert (Forall (λ pid, word pid = true) ["41"; "42"; "43"]) as Hwords.
  { repeat constructor. }
  split; [reflexivity|]. split; [reflexivity|]. split; [exact Hwords|].
  apply (get_java_pids_reads_lines host_ghost_user "prod" "/usr/bin/pgrep"
           ["/usr/bin/pgrep"; "java"] ["41"; "42"; "43"] EmptyString []
           eq_refl eq_refl); [done | exact Hwords | reflexivity].
Defined.

(** X2: on an output made of a header row and a values row, each a
    non-empty list of tokens joined by single spaces and ended by a
    newline, the parser does exactly what the mapper does on the two token
    rows: same metrics or same exception, same warnings. *)
Theorem parse_stats_reads_rows (env opt : string)
    (mm : option (gmap string string)) (pc : pid_cmd_user)
    (titles values : list string) (t : trace) :
  titles ≠ [] → values ≠ [] →
  Forall (λ w, word w = true) titles →
  Forall (λ w, word w = true) values →
  parse_stats env opt mm pc
    (two_lines (Py.join " " titles) (Py.join " " values)) t
  = build_metrics env opt mm pc titles values t.
Proof.
  intros Hne1 Hne2 Hw1 Hw2.
  destruct (join_words " " titles Hne1 Hw1) as (_ & _ & w & rest & Hw & Hhead).
  destruct (join_words " " values Hne2 Hw2) as (Hvne & Hvfix & _).
  assert (Py.strip (two_lines (Py.join " " titles) (Py.join " " values))
          = Py.join " " titles +:+ String newline (Py.join " " values))
    as Hstrip.
  { unfold two_lines.
    rewrite <- (append_assoc (Py.join " " titles)
                  (String newline (Py.join " " values))
                  (String newline EmptyString)).
    apply strip_body_newline.
    - exists w, (rest +:+ String newline (Py.join " " values)).
      split; [done|]. by rewrite Hhead, append_assoc.
    - change (Py.join " " titles +:+ String newline (Py.join " " values))
        with (Py.join " " titles
              +:+ (String newline EmptyString +:+ Py.join " " values)).
      rewrite <- append_assoc. by apply rstrip_fixed_app. }
  unfold parse_stats. rewrite Hstrip.
  rewrite split_app_sep by (by apply join_space_no_newline).
  rewrite split_no_sep by (by apply join_space_no_newline).
  unfold bind, getitem, ret. cbn [lookup list_lookup].
  by rewrite !fields_join.
Qed.

Lemma parse_stats_reads_rows_witness :
  Forall (λ w, word w = true) ["S0C"; "S1C"; "EC"; "OC"]
  ∧ Forall (λ w, word w = true) ["100"; "100"; "2048"; "4096"]
  ∧ parse_stats "prod" "-gc" (Some metric_maps_gc) ("1234", "java", "app")
      (two_lines "S0C S1C EC OC" "100 100 2048 4096") []
    = (inr [ "application=jstatmon"; "environment=prod"; "option=-gc";
             "user=app"; "pid=1234"; "command=java";
             "gc_current_survivor_space_0_capacity_kB=100";
             "gc_current_survivor_space_1_capacity_kB=100";
             "gc_current_eden_space_capacity_kB=2048";
             "gc_current_old_space_capacity_kB=4096" ], []).
Proof.
  assert (Forall (λ w, word w = true) ["S0C"; "S1C"; "EC"; "OC"]) as H1.
  { repeat constructor. }
  assert (Forall (λ w, word w = true) ["100"; "100"; "2048"; "4096"]) as H2.
  { repeat constructor. }
  split; [exact H1|]. split; [exact H2|].
  change (two_lines "S0C S1C EC OC" "100 100 2048 4096")
    with (two_lines (Py.join " " ["S0C"; "S1C"; "EC"; "OC"])
                    (Py.join " " ["100"; "100"; "2048"; "4096"])).
  rewrite (parse_stats_reads_rows "prod" "-gc" (Some metric_maps_gc)
             ("1234", "java", "app") ["S0C"; "S1C"; "EC"; "OC"]
             ["100"; "100"; "2048"; "4096"] []) by done.
  by vm_compute.
Defined.

(** X3: the line [_interpret_jstat] logs, at INFO level, splits back on
    white space into exactly the tokens it was built from, provided every
    token is non-empty and free of white space. *)
Theorem interpret_jstat_line_reads_back (metrics : list string) (t : trace) :
  Forall (λ token, word token = true) metrics →
  ∃ line,
    _interpret_jstat metrics t = (inr tt, t ++ [Log INFO (Plain line)])
    ∧ Py.fields line = metrics.
Proof.
  intros Hwords. exists (Py.join " " metrics).
  split; [reflexivity | by apply fields_join].
Qed.

Lemma interpret_jstat_line_reads_back_witness :
  Forall (λ token, word token = true)
    ["application=jstatmon"; "pid=1234"; "gc_metaspace_capacity_kB=4864.0"]
  ∧ ∃ line,
      _interpret_jstat
        ["application=jstatmon"; "pid=1234"; "gc_metaspace_capacity_kB=4864.0"]
        [] = (inr tt, [] ++ [Log INFO (Plain line)])
      ∧ Py.fields line
        = ["application=jstatmon"; "pid=1234";
           "gc_metaspace_capacity_kB=4864.0"].
Proof.
  assert (Forall (λ token, word token = true)
            ["application=jstatmon"; "pid=1234";
             "gc_metaspace_capacity_kB=4864.0"]) as Hwords.
  { repeat constructor. }
  split; [exact Hwords|].
  exact (interpret_jstat_line_reads_back _ [] Hwords).
Defined.

(** ** Missing tools and a missing search path *)

Lemma logged_app (lvl : level) (t1 t2 : trace) :
  logged lvl (t1 ++ t2) = logged lvl t1 ++ logged lvl t2.
Proof. unfold logged. apply omap_app. Qed.

Lemma spawned_app (t1 t2 : trace) :
  spawned (t1 ++ t2) = spawned t1 ++ spawned t2.
Proof. unfold spawned. apply omap_app. Qed.

(** X4: when [pgrep] cannot be located the run neither raises nor
    launches anything: it logs one error, emits no line and returns. *)
Theorem run_without_pgrep (w : World) (env : string) (t : trace) :
  (_which w env "pgrep" []).1 = inr None →
  ∃ evs,
    run w env t = (inr tt, t ++ evs)
    ∧ logged ERROR evs
      = [Plain "failed to retrieve pgrep executable location"]
    ∧ logged WARNING evs = []
    ∧ logged INFO evs = []
    ∧ spawned evs = [].
Proof.
  intros Hw. eexists. split.
  - unfold run, _get_java_pids, bind, debug, emit.
    rewrite which_trace, Hw. cbn. rewrite <- !app_assoc. reflexivity.
  - by cbn.
Qed.

Lemma run_without_pgrep_witness :
  (_which host_no_pgrep "prod" "pgrep" []).1 = inr None
  ∧ (run host_no_pgrep "prod" []).1 = inr tt
  ∧ logged ERROR (run host_no_pgrep "prod" []).2
    = [Plain "failed to retrieve pgrep executable location"].
Proof.
  split; [reflexivity|].
  destruct (run_without_pgrep host_no_pgrep "prod" [] eq_refl)
    as (evs & Hrun & Herr & _).
  rewrite Hrun. split; [reflexivity | exact Herr].
Defined.

(** X5: when the environment has no [PATH], looking up any name without a
    path separator raises [KeyError], while a name with a separator is
    still resolved; the run therefore raises [KeyError] at its first
    lookup, before anything is launched. *)
Theorem path_unset_raises (w : World) (env : string) (t : trace) :
  environ_PATH w = None →
  (∀ program, PosixPath.contains PosixPath.sep program = false →
              (_which w env program t).1 = inl (KeyError "PATH"))
  ∧ (∀ program, PosixPath.contains PosixPath.sep program = true →
                (_which w env program t).1
                = inr (if _is_executable w program then Some program
                       else None))
  ∧ (run w env t).1 = inl (KeyError "PATH")
  ∧ spawned (run w env t).2 = spawned t.
Proof.
  intros Hpath.
  assert (∀ program t', PosixPath.contains PosixPath.sep program = false →
            _which w env program t'
            = (inl (KeyError "PATH"),
               t' ++ [Log DEBUG
                        (Plain (msg env "start JStatmonClient._get_java_pids"))]))
    as Hbare.
  { intros program t' Hsep. unfold _which, bind, debug, emit, raise.
    pose proof (split_head_truthy program) as Hhead. rewrite Hsep in Hhead.
    destruct (PosixPath.split program) as [fpath fname]. cbn [fst] in Hhead.
    by rewrite Hhead, Hpath. }
  split; [|split; [|split]].
  - intros program Hsep. by rewrite Hbare.
  - intros program Hsep. unfold _which, bind, debug, emit.
    pose proof (split_head_truthy program) as Hhead. rewrite Hsep in Hhead.
    destruct (PosixPath.split program) as [fpath fname]. cbn [fst] in Hhead.
    rewrite Hhead. by destruct (_is_executable w program).
  - unfold run, _get_java_pids, bind, debug, emit. by rewrite Hbare.
  - unfold run, _get_java_pids, bind, debug, emit. rewrite Hbare by done.
    cbn [snd]. rewrite !spawned_app. cbn. by rewrite !app_nil_r.
Qed.

Lemma path_unset_raises_witness :
  environ_PATH host_no_path = None
  ∧ (_which host_no_path "prod" "pgrep" []).1 = inl (KeyError "PATH")
  ∧ (_which host_no_path "prod" "/usr/bin/pgrep" []).1
    = inr (Some "/usr/bin/pgrep")
  ∧ (run host_no_path "prod" []).1 = inl (KeyError "PATH").
Proof.
  split; [reflexivity|].
  destruct (path_unset_raises host_no_path "prod" [] eq_refl)
    as (Hbare & Hsep & Hrun & _).
  split; [by apply Hbare|]. split; [|exact Hrun].
  by rewrite Hsep.
Defined.

Section NoPs.

Context (w : World) (env : string).

Lemma inspect_all_without_ps (pids : list string) :
  (_which w env "ps" []).1 = inr None →
  ∀ pid_cmd t,
    inspect_all w env pids pid_cmd t
    = (inr pid_cmd, t ++ (pids ≫= skipped env)).
Proof.
  intros Hw. induction pids as [|pid pids IH]; intros pid_cmd t.
  - cbn. by rewrite app_nil_r.
  - cbn [inspect_all]. unfold _pid_to_command, bind, debug, emit.
    rewrite which_trace, Hw. cbn [fst found ret]. rewrite IH.
    cbn [mbind list_bind]. unfold skipped at 2.
    by rewrite <- !app_assoc.
Qed.

End NoPs.

Lemma skipped_logs (env : string) (pids : list string) :
  logged WARNING (pids ≫= skipped env)
  = (λ pid, Plain (msg env ("Failed to find command / user for PID "
                            +:+ pid))) <$> pids
  ∧ logged INFO (pids ≫= skipped env) = []
  ∧ spawned (pids ≫= skipped env) = [].
Proof.
  induction pids as [|pid pids (IHw & IHi & IHs)]; [done|].
  cbn [mbind list_bind fmap list_fmap].
  rewrite !logged_app, spawned_app, IHw, IHi, IHs. done.
Qed.

(** X6: when [ps] cannot be located, every enumerated PID is skipped with
    one warning, nothing is handed to the statistics stage, no tool is
    launched after [pgrep], no line is emitted, and the run returns. *)
Theorem run_without_ps (w : World) (env : string) (pids : list string)
    (t t1 : trace) :
  (_which w env "ps" []).1 = inr None →
  _get_java_pids w env
    (t ++ [Log DEBUG (Plain (msg env "start JStatmonClient.run"))])
  = (inr (Some pids), t1) →
  pids ≠ [] →
  (∀ pid_cmd t0, (inspect_all w env pids pid_cmd t0).1 = inr pid_cmd)
  ∧ ∃ evs,
      run w env t = (inr tt, t1 ++ evs)
      ∧ logged WARNING evs
        = (λ pid, Plain (msg env ("Failed to find command / user for PID "
                                  +:+ pid))) <$> pids
      ∧ logged INFO evs = []
      ∧ spawned evs = [].
Proof.
  intros Hps Hpids Hne. split.
  { intros pid_cmd t0. by rewrite inspect_all_without_ps. }
  destruct (skipped_logs env pids) as (Hwarn & Hinfo & Hspawn).
  exists ([Log DEBUG (Plain (msg env ("retrieved java pids pids="
                                      +:+ Py.join ", " pids)))]
          ++ (pids ≫= skipped env)
          ++ [Log DEBUG (Plain (msg env "end JStatmonClient.run"))]).
  split.
  - unfold run, bind, debug, emit. rewrite Hpids.
    destruct pids as [|pid pids]; [done|]. cbn [Py.nonempty].
    rewrite inspect_all_without_ps by done. cbn [collect_all ret].
    by rewrite <- !app_assoc.
  - rewrite !logged_app, !spawned_app, Hwarn, Hinfo, Hspawn. cbn.
    by rewrite !app_nil_r.
Qed.

Lemma run_without_ps_witness :
  (_which host_no_ps "prod" "ps" []).1 = inr None
  ∧ (_get_java_pids host_no_ps "prod"
       [Log DEBUG (Plain (msg "prod" "start JStatmonClient.run"))]).1
    = inr (Some ["41"; "42"])
  ∧ (run host_no_ps "prod" []).1 = inr tt
  ∧ logged WARNING (run host_no_ps "prod" []).2
    = [ Plain (msg "prod" "Failed to find command / user for PID 41");
        Plain (msg "prod" "Failed to find command / user for PID 42") ].
Proof.
  split; [reflexivity|]. split; [reflexivity|].
  destruct (run_without_ps host_no_ps "prod" ["41"; "42"] [] _
              eq_refl eq_refl ltac:(done))
    as (_ & evs & Hrun & _).
  rewrite Hrun. split; [reflexivity|]. rewrite <- Hrun. by vm_compute.
Defined.

(** Close a case of the inspector: name the events it appended. *)
Ltac pid_to_command_done :=
  unfold emit, ret; simpl; eexists; rewrite <- ?app_assoc;
  (split; [reflexivity|]); (split; [reflexivity|]);
  first [ exact I | by eexists _, _ ].

Section PsLocated.

Context (w : World) (env ps : string).
Hypothesis ps_located : (_which w env "ps" []).1 = inr (Some ps).

(** With [ps] located, inspecting a PID either raises or returns a
    reference carrying that PID, and logs no warning. *)
Lemma pid_to_command_located (pid : string) (t : trace) :
  ∃ evs, (_pid_to_command w env pid t).2 = t ++ evs
         ∧ logged WARNING evs = []
         ∧ match (_pid_to_command w env pid t).1 with
           | inr item => ∃ command user, item = Some (pid, command, user)
           | inl _ => True
           end.
Proof.
  unfold _pid_to_command, bind, debug, emit.
  rewrite which_trace, ps_located. cbn [fst].
  rewrite (which_found w env "ps" ps eq_refl ps_located).
  unfold shlex_split, Popen, bind, emit, ret, raise, log_stderr.
  destruct (Shlex.split (ps +:+ " -p " +:+ pid +:+ " -o command="))
    as [e1|argv1]; [pid_to_command_done|].
  destruct (popen w argv1 None) as [e2|[out1 err1]]; [pid_to_command_done|].
  destruct (Py.truthy err1);
    (destruct (Shlex.split (ps +:+ " -p " +:+ pid +:+ " -o user="))
       as [e3|argv2]; [pid_to_command_done|]);
    (destruct (popen w argv2 None) as [e4|[out2 err2]];
       [pid_to_command_done|]);
    destruct (Py.truthy err2); pid_to_command_done.
Qed.

End PsLocated.

(** X7: with [ps] located, the first loop of the run filters nothing:
    whenever it returns, the references it hands to the statistics stage
    carry exactly the enumerated PIDs, in order, after those it was given,
    and it has logged no warning. *)
Theorem inspect_all_keeps_every_pid (w : World) (env ps : string)
    (pids : list string) (pid_cmd res : list pid_cmd_user) (t t' : trace) :
  (_which w env "ps" []).1 = inr (Some ps) →
  inspect_all w env pids pid_cmd t = (inr res, t') →
  pid_of <$> res = (pid_of <$> pid_cmd) ++ pids
  ∧ logged WARNING t' = logged WARNING t.
Proof.
  intros Hps. revert pid_cmd t.
  induction pids as [|pid pids IH]; intros pid_cmd t Hres.
  - cbn in Hres. unfold ret in Hres. simplify_eq. by rewrite app_nil_r.
  - cbn [inspect_all] in Hres. unfold bind in Hres.
    destruct (pid_to_command_located w env ps Hps pid t)
      as (evs & Htr & Hquiet & Hitem).
    destruct (_pid_to_command w env pid t) as [[e|item] t1]; [done|].
    cbn [fst snd] in Htr, Hitem. destruct Hitem as (command & user & ->).
    apply IH in Hres as [Hpids Hwarn]. subst t1. split.
    + rewrite Hpids, fmap_app. cbn. by rewrite <- app_assoc.
    + by rewrite Hwarn, logged_app, Hquiet, app_nil_r.
Qed.

Lemma inspect_all_keeps_every_pid_witness :
  (_which host_evaporated "prod" "ps" []).1 = inr (Some "/usr/bin/ps")
  ∧ (inspect_all host_evaporated "prod" ["42"; "7"] [] []).1
    = inr [("42", EmptyString, EmptyString); ("7", EmptyString, EmptyString)]
  ∧ pid_of <$> [("42", EmptyString, EmptyString);
                ("7", EmptyString, EmptyString)] = [] ++ ["42"; "7"].
Proof.
  split; [reflexivity|]. split; [reflexivity|].
  apply (inspect_all_keeps_every_pid host_evaporated "prod" "/usr/bin/ps"
           ["42"; "7"] [] _ [] _ eq_refl eq_refl).
Defined.

(** ** What the stages may append to the trace *)

Create HintDb emits.

Section Emits.

Context (P : event → Prop) (w : World) (env : string).
Hypothesis P_plain : ∀ cmd_array, P (Spawn cmd_array None).
Hypothesis P_demoted : ∀ cmd_array pre, P (Spawn cmd_array (Some pre)).
Hypothesis P_debug : ∀ m, P (Log DEBUG m).
Hypothesis P_info : ∀ m, P (Log INFO m).
Hypothesis P_warning : ∀ m, P (Log WARNING m).
Hypothesis P_error : ∀ m, P (Log ERROR m).

Lemma emits_ret {A} (a : A) : emits P (ret a).
Proof. intros t. exists []. by rewrite app_nil_r. Qed.

Lemma emits_raise {A} (e : exn) : emits P (@raise A e).
Proof. intros t. exists []. by rewrite app_nil_r. Qed.

Lemma emits_emit (ev : event) : P ev → emits P (emit ev).
Proof. intros Hev t. exists [ev]. split; [done|]. by apply Forall_singleton. Qed.

Lemma emits_bind {A B} (m : M A) (k : A → M B) :
  emits P m → (∀ a, emits P (k a)) → emits P (bind m k).
Proof.
  intros Hm Hk t. destruct (Hm t) as (evs1 & Ht1 & Hevs1). unfold bind.
  destruct (m t) as [[e|a] t1]; cbn in Ht1; subst t1.
  - by exists evs1.
  - destruct (Hk a (t ++ evs1)) as (evs2 & Ht2 & Hevs2).
    exists (evs1 ++ evs2). rewrite Ht2, app_assoc. split; [done|].
    by apply Forall_app.
Qed.

Lemma emits_debug (text : string) : emits P (debug env text).
Proof. by apply emits_emit. Qed.

Lemma emits_error (m : message) : emits P (emit (Log ERROR m)).
Proof. by apply emits_emit. Qed.

Lemma emits_warning (m : message) : emits P (emit (Log WARNING m)).
Proof. by apply emits_emit. Qed.

Lemma emits_getitem {A} (l : list A) (i : nat) : emits P (getitem l i).
Proof.
  unfold getitem. destruct (l !! i); [apply emits_ret | apply emits_raise].
Qed.

Lemma emits_setitem {A} (l : list A) (i : nat) (x : A) :
  emits P (setitem l i x).
Proof.
  unfold setitem. case_decide; [apply emits_ret | apply emits_raise].
Qed.

Lemma emits_log_stderr (stderr : string) : emits P (log_stderr stderr).
Proof.
  unfold log_stderr. destruct (Py.truthy stderr);
    [apply emits_error | apply emits_ret].
Qed.

Lemma emits_shlex_split (cmd : string) : emits P (shlex_split cmd).
Proof.
  unfold shlex_split. destruct (Shlex.split cmd);
    [apply emits_raise | apply emits_ret].
Qed.

Lemma emits_Popen (cmd_array : list string) (pre : option preexec_fn) :
  P (Spawn cmd_array pre) → emits P (Popen w cmd_array pre).
Proof.
  intros Hpre. unfold Popen. apply emits_bind; [by apply emits_emit|].
  intros _. destruct (popen w cmd_array pre);
    [apply emits_raise | apply emits_ret].
Qed.

Hint Resolve emits_ret emits_raise emits_debug emits_error emits_warning
  emits_getitem emits_setitem emits_log_stderr emits_shlex_split emits_Popen
  : emits.

(** Peel the binds of a method body, closing each step from the hint
    database and splitting the pair a step returns. *)
Ltac emits_seq :=
  repeat (apply emits_bind;
          [ solve [auto with emits]
          | let x := fresh "x" in
            intros x;
            lazymatch type of x with
            | (_ * _)%type => destruct x
            | _ => idtac
            end ]);
  auto with emits.

Lemma emits_which (program : string) : emits P (_which w env program).
Proof.
  unfold _which. apply emits_bind; [auto with emits | intros _].
  destruct (PosixPath.split program) as [fpath fname].
  destruct (Py.truthy fpath).
  - destruct (_is_executable w program); apply emits_ret.
  - destruct (environ_PATH w); [apply emits_ret | apply emits_raise].
Qed.

Hint Resolve emits_which : emits.

Lemma emits_get_java_pids : emits P (_get_java_pids w env).
Proof.
  unfold _get_java_pids.
  apply emits_bind; [auto with emits | intros _].
  apply emits_bind; [auto with emits | intros pgrep_executable].
  destruct (found pgrep_executable); emits_seq.
Qed.

Lemma emits_pid_to_command (pid : string) :
  emits P (_pid_to_command w env pid).
Proof.
  unfold _pid_to_command.
  apply emits_bind; [auto with emits | intros _].
  apply emits_bind; [auto with emits | intros ps_executable].
  destruct (found ps_executable); emits_seq.
Qed.

Lemma emits_inspect_all (pids : list string) :
  ∀ pid_cmd, emits P (inspect_all w env pids pid_cmd).
Proof.
  induction pids as [|pid rest IH]; intros pid_cmd; cbn [inspect_all];
    [apply emits_ret|].
  apply emits_bind; [apply emits_pid_to_command|]. intros [it|]; [apply IH|].
  apply emits_bind; [auto with emits | intros _; apply IH].
Qed.

Lemma emits_select_metric_maps (opt : string) :
  emits P (select_metric_maps env opt).
Proof.
  unfold select_metric_maps.
  repeat (destruct (String.eqb opt _); [emits_seq|]). emits_seq.
Qed.

Lemma emits_map_titles (opt : string) (mm : option (gmap string string))
    (values_all titles : list string) :
  ∀ position metrics,
    emits P (map_titles env opt mm values_all position titles metrics).
Proof.
  induction titles as [|title rest IH]; intros position metrics;
    cbn [map_titles]; [apply emits_ret|].
  destruct mm as [mm|]; [|apply emits_raise].
  destruct (mm !! title).
  - apply emits_bind; [apply emits_getitem | intros value; apply IH].
  - apply emits_bind; [auto with emits | intros _; apply IH].
Qed.

Lemma emits_rewrite_titles (opt : string) (titles : list string) :
  emits P (rewrite_titles opt titles).
Proof.
  unfold rewrite_titles. destruct (String.eqb opt "-class"); emits_seq.
Qed.

Hint Resolve emits_select_metric_maps emits_map_titles emits_rewrite_titles
  : emits.

Lemma emits_parse_stats (opt : string) (mm : option (gmap string string))
    (pc : pid_cmd_user) (stdout : string) :
  emits P (parse_stats env opt mm pc stdout).
Proof. unfold parse_stats, build_metrics. emits_seq. Qed.

Hint Resolve emits_parse_stats : emits.

Lemma emits_jstat_option (jstat : string) (pc : pid_cmd_user) (opt : string) :
  emits P (jstat_option w env jstat pc opt).
Proof.
  destruct pc as [[pid cmd] user]. unfold jstat_option.
  apply emits_bind; [auto with emits | intros metric_maps].
  apply emits_bind; [auto with emits | intros cmd_array].
  apply emits_bind.
  { destruct (getpwnam w user); auto with emits. }
  intros record. emits_seq.
Qed.

Lemma emits_jstat_options (jstat : string) (pc : pid_cmd_user)
    (opts : list string) :
  ∀ stats, emits P (jstat_options w env jstat pc opts stats).
Proof.
  induction opts as [|opt rest IH]; intros stats; cbn [jstat_options];
    [apply emits_ret|].
  apply emits_bind; [apply emits_jstat_option | intros metrics; apply IH].
Qed.

Hint Resolve emits_jstat_options : emits.

Lemma emits_jstat_details (pc : pid_cmd_user) :
  emits P (_jstat_details w env pc).
Proof.
  unfold _jstat_details.
  apply emits_bind; [auto with emits | intros _].
  apply emits_bind; [auto with emits | intros jstat_executable].
  destruct (found jstat_executable); emits_seq.
Qed.

Lemma emits_interpret_all (metrics : list (list string)) :
  emits P (interpret_all metrics).
Proof.
  induction metrics as [|m rest IH]; cbn [interpret_all]; [apply emits_ret|].
  apply emits_bind; [by apply emits_emit | intros _; apply IH].
Qed.

Lemma emits_collect_all (pid_cmd : list pid_cmd_user) :
  emits P (collect_all w env pid_cmd).
Proof.
  induction pid_cmd as [|pc rest IH]; cbn [collect_all]; [apply emits_ret|].
  apply emits_bind; [apply emits_jstat_details | intros metrics].
  apply emits_bind; [|intros _; apply IH].
  destruct metrics; [apply emits_interpret_all | apply emits_raise].
Qed.

End Emits.

(** ** The lines of a run *)

Lemma logged_info_quiet (evs : list event) :
  Forall not_info evs → logged INFO evs = [].
Proof.
  induction 1 as [|ev evs Hev _ IH]; [done|].
  change (ev :: evs) with ([ev] ++ evs). rewrite logged_app, IH, app_nil_r.
  by destruct ev as [[] m|].
Qed.

(** A stage that appends no INFO event leaves the emitted lines as they
    were. *)
Lemma quiet_stage {A} (m : M A) (t : trace) :
  emits not_info m → logged INFO (m t).2 = logged INFO t.
Proof.
  intros Hm. destruct (Hm t) as (evs & -> & Hevs).
  by rewrite logged_app, (logged_info_quiet evs Hevs), app_nil_r.
Qed.

Section Lines.

Context (w : World) (env : string).

Lemma map_titles_extends (opt : string) (mm : option (gmap string string))
    (values_all titles : list string) :
  ∀ position metrics t res t',
    map_titles env opt mm values_all position titles metrics t = (inr res, t') →
    ∃ more, res = metrics ++ more.
Proof.
  induction titles as [|title rest IH]; intros position metrics t res t' Hres.
  - cbn in Hres. unfold ret in Hres. simplify_eq.
    exists []. by rewrite app_nil_r.
  - cbn [map_titles] in Hres. destruct mm as [mm|]; [|done].
    destruct (mm !! title) as [long|].
    + unfold bind, getitem in Hres.
      destruct (values_all !! position) as [value|]; [|done].
      apply IH in Hres as [more ->]. rewrite <- app_assoc. by eexists.
    + unfold bind, emit in Hres. by apply IH in Hres.
Qed.

Lemma jstat_option_opens (jstat : string) (pc : pid_cmd_user) (opt : string)
    (t : trace) (metrics : list string) (t' : trace) :
  jstat_option w env jstat pc opt t = (inr metrics, t') →
  opens_with env pc opt metrics.
Proof.
  destruct pc as [[pid cmd] user]. unfold jstat_option, bind.
  destruct (select_metric_maps env opt t) as [[e|mm] t1]; [done|].
  destruct (shlex_split _ t1) as [[e|cmd_array] t2]; [done|].
  destruct (match getpwnam w user with
            | Some r => ret r
            | None => raise (KeyError user)
            end t2) as [[e|record] t3]; [done|].
  destruct (Popen w cmd_array _ t3) as [[e|[stdout stderr]] t4]; [done|].
  destruct (log_stderr stderr t4) as [[e|[]] t5]; [done|].
  unfold parse_stats, bind.
  destruct (getitem _ 1 t5) as [[e|values_line] t6]; [done|].
  destruct (getitem _ 0 t6) as [[e|titles_line] t7]; [done|].
  unfold build_metrics, bind.
  destruct (rewrite_titles opt _ t7) as [[e|titles] t8]; [done|].
  apply map_titles_extends.
Qed.

Lemma jstat_options_open (jstat : string) (pc : pid_cmd_user)
    (opts : list string) :
  ∀ stats t res t',
    jstat_options w env jstat pc opts stats t = (inr res, t') →
    ∃ news, res = stats ++ news ∧ Forall2 (opens_with env pc) opts news.
Proof.
  induction opts as [|opt rest IH]; intros stats t res t' Hres.
  - cbn in Hres. unfold ret in Hres. simplify_eq.
    exists []. by rewrite app_nil_r.
  - cbn [jstat_options] in Hres. unfold bind in Hres.
    destruct (jstat_option w env jstat pc opt t) as [[e|metrics] t1] eqn:Hopt;
      [done|].
    apply jstat_option_opens in Hopt.
    apply IH in Hres as (news & -> & Hnews).
    exists (metrics :: news). rewrite <- app_assoc. split; [done|].
    by constructor.
Qed.

Lemma jstat_details_five_lines (pc : pid_cmd_user) (t : trace)
    (stats : list (list string)) (t' : trace) :
  _jstat_details w env pc t = (inr (Some stats), t') →
  five_lines env pc stats.
Proof.
  unfold _jstat_details, bind. intros Hres.
  destruct (debug env _ t) as [[e|[]] t1]; [done|].
  destruct (_which w env "jstat" t1) as [[e|jstat_executable] t2]; [done|].
  destruct (found jstat_executable) as [jstat|].
  - destruct (jstat_options w env jstat pc options [] t2)
      as [[e|res] t3] eqn:Hopts; [done|].
    apply jstat_options_open in Hopts as (news & -> & Hnews).
    destruct (debug env _ t3) as [[e|[]] t4]; [done|].
    unfold ret in Hres. by simplify_eq.
  - destruct (emit _ t2) as [[e|[]] t3]; [done|].
    unfold ret in Hres. by simplify_eq.
Qed.

Lemma interpret_all_lines (metrics : list (list string)) (t : trace) :
  interpret_all metrics t
  = (inr tt, t ++ ((λ m, Log INFO (Plain (Py.join " " m))) <$> metrics)).
Proof.
  revert t. induction metrics as [|m rest IH]; intros t.
  - cbn. by rewrite app_nil_r.
  - cbn [interpret_all]. unfold bind, _interpret_jstat, emit.
    rewrite IH. cbn [fmap list_fmap]. by rewrite <- app_assoc.
Qed.

Lemma logged_info_lines (metrics : list (list string)) :
  logged INFO ((λ m, Log INFO (Plain (Py.join " " m))) <$> metrics)
  = (λ m, Plain (Py.join " " m)) <$> metrics.
Proof. induction metrics as [|m rest IH]; [done|]. cbn. by f_equal. Qed.

(** The second loop of the run emits the lines of the processes it got
    through, each with all five of its lines, and nothing else. *)
Lemma collect_all_lines (pid_cmd : list pid_cmd_user) :
  ∀ t, ∃ statss,
    Forall2 (five_lines env) (take (length statss) pid_cmd) statss
    ∧ logged INFO (collect_all w env pid_cmd t).2
      = logged INFO t ++ lines_of statss
    ∧ ((collect_all w env pid_cmd t).1 = inr tt →
       length statss = length pid_cmd).
Proof.
  induction pid_cmd as [|pc rest IH]; intros t.
  { exists []. cbn. split; [constructor|]. by rewrite app_nil_r. }
  cbn [collect_all]. unfold bind.
  pose proof (quiet_stage (_jstat_details w env pc) t) as Hquiet.
  destruct (_jstat_details w env pc t) as [[e|[stats|]] t1] eqn:Hjd;
    cbn [snd] in Hquiet.
  - exists []. cbn. split; [constructor|]. rewrite app_nil_r.
    split; [|done]. apply Hquiet, emits_jstat_details; by intros.
  - apply jstat_details_five_lines in Hjd.
    rewrite interpret_all_lines.
    destruct (IH (t1 ++ ((λ m, Log INFO (Plain (Py.join " " m))) <$> stats)))
      as (statss & Hshape & Hlines & Hlen).
    exists (stats :: statss). split; [by constructor|]. split.
    + rewrite Hlines, logged_app, logged_info_lines, Hquiet.
      * unfold lines_of. cbn [concat]. by rewrite fmap_app, app_assoc.
      * apply emits_jstat_details; by intros.
    + intros Hok. cbn. f_equal. by apply Hlen.
  - exists []. cbn. split; [constructor|]. rewrite app_nil_r.
    split; [|done]. apply Hquiet, emits_jstat_details; by intros.
Qed.

End Lines.

Lemma five_lines_length (env : string) (pc : pid_cmd_user)
    (stats : list (list string)) :
  five_lines env pc stats → length stats = 5.
Proof. intros Hfive. by apply Forall2_length in Hfive. Qed.

Lemma lines_of_length (env : string) (pid_cmd : list pid_cmd_user)
    (statss : list (list (list string))) :
  Forall2 (five_lines env) pid_cmd statss →
  length (lines_of statss) = 5 * length statss.
Proof.
  unfold lines_of. rewrite length_fmap.
  induction 1 as [|pc stats pid_cmd statss Hfive _ IH]; [done|].
  cbn [concat]. rewrite length_app, IH, (five_lines_length _ _ _ Hfive).
  cbn [length]. lia.
Qed.

(** X8: whether a run completes or raises, the lines it emits are those of
    the processes whose statistics it got through, in order: for each one
    all five lines, one per option in the order of the option list, each
    opening with the six context tokens of that option and process.  No
    process ever has only some of its lines emitted, so the number of lines
    is a multiple of five; and a run that completes has emitted the five
    lines of every process it inspected. *)
Theorem run_emits_whole_processes (w : World) (env : string) (t : trace) :
  ∃ (pid_cmd : list pid_cmd_user) (statss : list (list (list string))),
    Forall2 (five_lines env) pid_cmd statss
    ∧ logged INFO (run w env t).2 = logged INFO t ++ lines_of statss
    ∧ length (lines_of statss) = 5 * length pid_cmd
    ∧ ∀ pids t1 inspected t2,
        _get_java_pids w env
          (t ++ [Log DEBUG (Plain (msg env "start JStatmonClient.run"))])
        = (inr (Some pids), t1) →
        inspect_all w env pids []
          (t1 ++ [Log DEBUG (Plain (msg env ("retrieved java pids pids="
                                             +:+ Py.join ", " pids)))])
        = (inr inspected, t2) →
        pids ≠ [] →
        pid_cmd = take (length pid_cmd) inspected
        ∧ ((run w env t).1 = inr tt → pid_cmd = inspected).
Proof.
  assert (∀ A (m : M A), emits not_info m →
            ∀ t0, logged INFO (m t0).2 = logged INFO t0) as Hq.
  { intros A m Hm t0. by apply quiet_stage. }
  assert (∀ t0 text, logged INFO (t0 ++ [Log DEBUG (Plain text)])
                     = logged INFO t0) as Hdbg.
  { intros t0 text. by rewrite logged_app, app_nil_r. }
  assert (∃ pid_cmd statss,
            Forall2 (five_lines env) pid_cmd statss
            ∧ logged INFO (run w env t).2 = logged INFO t ++ lines_of statss
            ∧ ∀ pids t1 inspected t2,
                _get_java_pids w env
                  (t ++ [Log DEBUG (Plain (msg env "start JStatmonClient.run"))])
                = (inr (Some pids), t1) →
                inspect_all w env pids []
                  (t1 ++ [Log DEBUG
                            (Plain (msg env ("retrieved java pids pids="
                                             +:+ Py.join ", " pids)))])
                = (inr inspected, t2) →
                pids ≠ [] →
                pid_cmd = take (length pid_cmd) inspected
                ∧ ((run w env t).1 = inr tt → pid_cmd = inspected))
    as (pid_cmd & statss & Hshape & Hlines & Hlink).
  2: { exists pid_cmd, statss. split; [done|]. split; [done|].
       split; [|done]. rewrite (lines_of_length env pid_cmd statss Hshape).
       by rewrite (Forall2_length _ _ _ Hshape). }
  unfold run, bind, debug, emit.
  assert (emits not_info (_get_java_pids w env)) as Hgjp.
  { apply emits_get_java_pids; by intros. }
  apply (λ H, Hq _ _ H
           (t ++ [Log DEBUG (Plain (msg env "start JStatmonClient.run"))]))
    in Hgjp.
  rewrite Hdbg in Hgjp.
  destruct (_get_java_pids w env _) as [[e|[pids|]] t1]; cbn [snd] in Hgjp.
  - exists [], []. split; [constructor|]. cbn [snd]. split; [|done].
    by rewrite app_nil_r.
  - destruct pids as [|pid pids]; cbn [Py.nonempty].
    { exists [], []. split; [constructor|]. cbn [ret snd]. split.
      - by rewrite Hdbg, app_nil_r.
      - intros ???? [= <- <-] _ Hne. done. }
    assert (emits not_info (inspect_all w env (pid :: pids) [])) as Hins.
    { apply emits_inspect_all; by intros. }
    apply (λ H, Hq _ _ H
             (t1 ++ [Log DEBUG
                       (Plain (msg env ("retrieved java pids pids="
                                        +:+ Py.join ", " (pid :: pids))))]))
      in Hins.
    rewrite Hdbg in Hins.
    destruct (inspect_all w env (pid :: pids) [] _) as [[e|inspected] t2]
      eqn:Hinspect; cbn [snd] in Hins.
    { exists [], []. split; [constructor|]. cbn [snd]. split.
      - by rewrite app_nil_r, Hins.
      - intros ???? [= <- <-] Hins' _. by rewrite Hinspect in Hins'. }
    destruct (collect_all_lines w env inspected t2)
      as (statss & Hshape & Hlines & Hlen).
    exists (take (length statss) inspected), statss.
    split; [done|].
    destruct (collect_all w env inspected t2) as [[e|[]] t3]; cbn [fst snd] in *.
    + split; [by rewrite Hlines, Hins, Hgjp|].
      intros ???? [= <- <-] Hins' _. rewrite Hinspect in Hins'.
      injection Hins' as <- <-. split; [|done].
      by rewrite (Forall2_length _ _ _ Hshape).
    + split; [by rewrite Hdbg, Hlines, Hins, Hgjp|].
      intros ???? [= <- <-] Hins' _. rewrite Hinspect in Hins'.
      injection Hins' as <- <-. rewrite (Hlen eq_refl), !firstn_all.
      by split.
  - exists [], []. split; [constructor|]. cbn [ret snd]. split.
    + by rewrite Hdbg, app_nil_r.
    + intros ???? [=].
Qed.

(** ** What the parser can do *)

Section ParserEffects.

Context (env opt : string) (mm : gmap string string).

Lemma map_titles_effects (values_all titles : list string) :
  ∀ position metrics t,
    (∀ e, (map_titles env opt (Some mm) values_all position titles metrics t).1
          = inl e → e = IndexError)
    ∧ ∃ evs,
        (map_titles env opt (Some mm) values_all position titles metrics t).2
        = t ++ evs
        ∧ Forall (unmapped_warning env opt mm) evs.
Proof.
  induction titles as [|title rest IH]; intros position metrics t.
  - cbn. split; [done|]. exists []. by rewrite app_nil_r.
  - cbn [map_titles]. destruct (mm !! title) as [long|] eqn:Hmm.
    + unfold bind, getitem. destruct (values_all !! position) as [value|].
      * apply IH.
      * cbn. split; [by intros e [= <-]|]. exists []. by rewrite app_nil_r.
    + unfold bind, emit.
      destruct (IH (S position) metrics
                  (t ++ [Log WARNING (ItemNotFound env opt title (Some mm))]))
        as (Hexn & evs & Htr & Hevs).
      split; [done|]. eexists. rewrite Htr, <- app_assoc. split; [done|].
      constructor; [by exists title | done].
Qed.

End ParserEffects.

(** X9: the parser fails in one way only, by [IndexError]; it launches
    nothing, and the only events it adds to the trace are warnings for
    headers that the mapping does not know. *)
Theorem parse_stats_only_index_error (env opt : string)
    (mm : gmap string string) (pc : pid_cmd_user) (stdout : string)
    (t : trace) :
  (∀ e, (parse_stats env opt (Some mm) pc stdout t).1 = inl e →
        e = IndexError)
  ∧ ∃ evs,
      (parse_stats env opt (Some mm) pc stdout t).2 = t ++ evs
      ∧ Forall (unmapped_warning env opt mm) evs
      ∧ spawned evs = [].
Proof.
  assert (∀ evs, Forall (unmapped_warning env opt mm) evs → spawned evs = [])
    as Hnone.
  { induction 1 as [|ev evs (title & _ & ->) _ IH]; [done | exact IH]. }
  assert ((∀ e, (parse_stats env opt (Some mm) pc stdout t).1 = inl e →
                e = IndexError)
          ∧ ∃ evs,
              (parse_stats env opt (Some mm) pc stdout t).2 = t ++ evs
              ∧ Forall (unmapped_warning env opt mm) evs)
    as (Hexn & evs & Htr & Hevs).
  2: { split; [done|]. exists evs. auto. }
  unfold parse_stats, bind, getitem.
  destruct (Py.split newline (Py.strip stdout) !! 1) as [values_line|].
  2: { cbn. split; [by intros e [= <-]|]. exists []. by rewrite app_nil_r. }
  destruct (Py.split newline (Py.strip stdout) !! 0) as [titles_line|].
  2: { cbn. split; [by intros e [= <-]|]. exists []. by rewrite app_nil_r. }
  cbn [ret]. unfold build_metrics, bind.
  destruct (rewrite_titles_cases opt (Py.fields titles_line) t)
    as [->|(_ & _ & ->)].
  - apply map_titles_effects.
  - cbn. split; [by intros e [= <-]|]. exists []. by rewrite app_nil_r.
Qed.

(** ** The command lines *)

Lemma lex_word_plain (s : string) :
  ∀ token rest,
    plain_chars s = true →
    Shlex.lex Shlex.Word false token (s +:+ rest)
    = Shlex.lex Shlex.Word false (token +:+ s) rest.
Proof.
  induction s as [|c s IH]; intros token rest Hs.
  - by rewrite append_empty_r.
  - cbn [plain_chars] in Hs.
    apply andb_true_iff in Hs as [[[Hws Hq]%andb_true_iff Hb]%andb_true_iff Hs].
    apply negb_true_iff in Hws, Hq, Hb.
    rewrite append_cons. cbn [Shlex.lex]. rewrite Hws, Hq, Hb.
    rewrite IH by done. unfold Shlex.add. by rewrite append_assoc.
Qed.

Lemma lex_blank_plain (w rest : string) :
  shell_plain w = true →
  Shlex.lex Shlex.Blank false EmptyString (w +:+ rest)
  = Shlex.lex Shlex.Word false w rest.
Proof.
  destruct w as [|c w]; [done|]. unfold shell_plain. cbn [Py.truthy andb].
  intros Hs. cbn [plain_chars] in Hs.
  apply andb_true_iff in Hs as [[[Hws Hq]%andb_true_iff Hb]%andb_true_iff Hs].
  apply negb_true_iff in Hws, Hq, Hb.
  rewrite append_cons. cbn [Shlex.lex]. rewrite Hws, Hq, Hb.
  by rewrite lex_word_plain.
Qed.

Lemma lex_word_blank (token rest : string) :
  Py.truthy token = true →
  Shlex.lex Shlex.Word false token (String " " rest)
  = Shlex.push token (Shlex.lex Shlex.Blank false EmptyString rest).
Proof.
  intros Hne. cbn [Shlex.lex]. change (Shlex.whitespace " ") with true.
  cbn match. by rewrite Hne.
Qed.

(** Plain words joined by single blanks split back into the words. *)
Lemma shlex_split_join (words : list string) :
  Forall (λ w, shell_plain w = true) words →
  Shlex.split (Py.join " " words) = inr words.
Proof.
  unfold Shlex.split. induction 1 as [|w words Hw Hwords IH]; [done|].
  assert (Py.truthy w = true) as Hne.
  { unfold shell_plain in Hw. by apply andb_true_iff in Hw as [? _]. }
  destruct words as [|w' words].
  - cbn [Py.join]. rewrite <- (append_empty_r w) at 1.
    rewrite lex_blank_plain by done. cbn [Shlex.lex]. by rewrite Hne.
  - change (Py.join " " (w :: w' :: words))
      with (w +:+ String " " (Py.join " " (w' :: words))).
    rewrite lex_blank_plain, lex_word_blank by done. by rewrite IH.
Qed.

Lemma select_metric_maps_one_event (env opt : string) (t : trace) :
  ∃ mm ev, select_metric_maps env opt t = (inr mm, t ++ [ev]).
Proof.
  unfold select_metric_maps, bind, debug, emit, ret.
  repeat (destruct (String.eqb opt _); [by eexists _, _|]).
  by eexists _, _.
Qed.

(** X10: a tool path, a PID and an option that hold no blank, quote or
    backslash reach the tools as separate, unchanged arguments: [pgrep]
    gets [java]; [ps] gets [-p], the PID, [-o] and the column; and the
    statistics tool is launched, demoted to the owner, with exactly the
    option and the PID.  With an empty PID the [-p] flag of [ps] is left
    without its argument. *)
Theorem tools_get_exact_arguments (exe pid opt : string) :
  shell_plain exe = true → shell_plain pid = true → shell_plain opt = true →
  Shlex.split (exe +:+ " java") = inr [exe; "java"]
  ∧ Shlex.split (exe +:+ " -p " +:+ pid +:+ " -o command=")
    = inr [exe; "-p"; pid; "-o"; "command="]
  ∧ Shlex.split (exe +:+ " -p " +:+ pid +:+ " -o user=")
    = inr [exe; "-p"; pid; "-o"; "user="]
  ∧ Shlex.split (exe +:+ " -p " +:+ EmptyString +:+ " -o command=")
    = inr [exe; "-p"; "-o"; "command="]
  ∧ ∀ (w : World) (env cmd user : string) (r : passwd) (t : trace),
      getpwnam w user = Some r →
      ∃ ev rest,
        (jstat_option w env exe (pid, cmd, user) opt t).2
        = t ++ ev :: Spawn [exe; opt; pid]
                       (Some [Setgid (pw_gid r); Setuid (pw_uid r)])
               :: rest.
Proof.
  intros Hexe Hpid Hopt.
  assert (Shlex.split (exe +:+ " " +:+ opt +:+ " " +:+ pid)
          = inr [exe; opt; pid]) as Hjstat.
  { apply (shlex_split_join [exe; opt; pid]). by repeat constructor. }
  split.
  { apply (shlex_split_join [exe; "java"]). by repeat constructor. }
  split.
  { apply (shlex_split_join [exe; "-p"; pid; "-o"; "command="]).
    by repeat constructor. }
  split.
  { apply (shlex_split_join [exe; "-p"; pid; "-o"; "user="]).
    by repeat constructor. }
  split.
  { unfold Shlex.split.
    change (exe +:+ " -p " +:+ EmptyString +:+ " -o command=")
      with (exe +:+ " -p  -o command=").
    rewrite lex_blank_plain by done.
    unfold shell_plain in Hexe. apply andb_true_iff in Hexe as [Hne _].
    rewrite lex_word_blank by done. by vm_compute. }
  intros w env cmd user r t Hpw. unfold jstat_option, bind.
  destruct (select_metric_maps_one_event env opt t) as (mm & ev & ->).
  unfold shlex_split. rewrite Hjstat, Hpw. cbn [ret].
  unfold Popen at 1. unfold bind, emit.
  destruct (popen w [exe; opt; pid] _) as [e|[stdout stderr]].
  { cbn. exists ev, []. by rewrite <- app_assoc. }
  cbn [ret].
  assert (emits (λ _, True)
            (λ t0, let (s, t') := log_stderr stderr t0 in
                   match s with
                   | inl e => (inl e, t')
                   | inr _ => parse_stats env opt mm (pid, cmd, user) stdout t'
                   end)) as Hrest.
  { apply (emits_bind (λ _, True) (log_stderr stderr)
             (λ _, parse_stats env opt mm (pid, cmd, user) stdout)).
    - by apply emits_log_stderr.
    - intros _. by apply emits_parse_stats. }
  destruct (Hrest ((t ++ [ev]) ++ [Spawn [exe; opt; pid]
                                     (Some (_demote (pw_uid r) (pw_gid r)))]))
    as (evs & Htr & _).
  exists ev, evs. rewrite Htr. by rewrite <- !app_assoc.
Qed.

Lemma tools_get_exact_arguments_witness :
  shell_plain "/usr/bin/jstat" = true
  ∧ shell_plain "1234" = true
  ∧ shell_plain "-gc" = true
  ∧ Shlex.split "/usr/bin/jstat -p 1234 -o user="
    = inr ["/usr/bin/jstat"; "-p"; "1234"; "-o"; "user="]
  ∧ spawned (jstat_option host_healthy "prod" "/usr/bin/jstat"
               ("1234", "java -jar app.jar", "app") "-gc" []).2
    = ["/usr/bin/jstat -gc 1234"].
Proof.
  do 3 (split; [reflexivity|]).
  destruct (tools_get_exact_arguments "/usr/bin/jstat" "1234" "-gc"
              eq_refl eq_refl eq_refl) as (_ & _ & Huser & _ & Hlaunch).
  split; [exact Huser|].
  destruct (Hlaunch host_healthy "prod" "java -jar app.jar" "app"
              {| pw_uid := 1000; pw_gid := 100 |} [] eq_refl)
    as (ev & rest & Htr).
  by vm_compute.
Defined.

(** ** The metric schema *)

Lemma metric_keys_NoDup : NoDup (snd <$> metric_keys).
Proof. apply (bool_decide_unpack _). by vm_compute. Qed.

Lemma select_metric_maps_value (env opt : string) (t : trace) :
  (select_metric_maps env opt t).1
  = (select_metric_maps EmptyString opt []).1.
Proof.
  unfold select_metric_maps, bind, debug, emit, ret.
  by repeat (destruct (String.eqb opt _); [done|]).
Qed.

Lemma metric_key_listed (env opt title long : string)
    (mm : gmap string string) (t : trace) :
  opt ∈ options →
  (select_metric_maps env opt t).1 = inr (Some mm) →
  mm !! title = Some long →
  (opt, title, Py.tail opt +:+ "_" +:+ long) ∈ metric_keys.
Proof.
  intros Hopt Hsel Hlook. unfold metric_keys.
  apply list_elem_of_bind. exists opt. split; [|done].
  rewrite select_metric_maps_value in Hsel. rewrite Hsel.
  apply list_elem_of_fmap. exists (title, long). split; [done|].
  by apply elem_of_map_to_list.
Qed.

(** X11: metric keys identify their column: over the options of the option
    list, two headers of the selected mappings that give the same metric
    key are the same header of the same option. *)
Theorem metric_keys_unique (env : string) (t : trace)
    (opt1 opt2 title1 title2 long1 long2 : string)
    (mm1 mm2 : gmap string string) :
  opt1 ∈ options → opt2 ∈ options →
  (select_metric_maps env opt1 t).1 = inr (Some mm1) →
  (select_metric_maps env opt2 t).1 = inr (Some mm2) →
  mm1 !! title1 = Some long1 →
  mm2 !! title2 = Some long2 →
  Py.tail opt1 +:+ "_" +:+ long1 = Py.tail opt2 +:+ "_" +:+ long2 →
  opt1 = opt2 ∧ title1 = title2.
Proof.
  intros Hopt1 Hopt2 Hsel1 Hsel2 Hlook1 Hlook2 Hkey.
  pose proof (metric_key_listed env opt1 title1 long1 mm1 t Hopt1 Hsel1 Hlook1)
    as Hin1.
  pose proof (metric_key_listed env opt2 title2 long2 mm2 t Hopt2 Hsel2 Hlook2)
    as Hin2.
  apply list_elem_of_lookup in Hin1 as [i Hi], Hin2 as [j Hj].
  assert (i = j) as ->.
  { apply (NoDup_lookup (snd <$> metric_keys) i j
             (Py.tail opt1 +:+ "_" +:+ long1));
      [apply metric_keys_NoDup | |].
    - by rewrite list_lookup_fmap, Hi.
    - by rewrite list_lookup_fmap, Hj, Hkey. }
  rewrite Hi in Hj. injection Hj as Hopt Htitle _. by split.
Qed.

Lemma metric_keys_unique_witness :
  "-gc" ∈ options
  ∧ "-gcnew" ∈ options
  ∧ metric_maps_gc !! "S0C" = Some "current_survivor_space_0_capacity_kB"
  ∧ metric_maps_gcnew !! "S0C" = Some "current_survivor_space_0_capacity_kB"
  ∧ (Py.tail "-gc" +:+ "_" +:+ "current_survivor_space_0_capacity_kB"
     = Py.tail "-gcnew" +:+ "_" +:+ "current_survivor_space_0_capacity_kB" →
     "-gc" = "-gcnew" ∧ "S0C" = "S0C").
Proof.
  assert ("-gc" ∈ options) as H1
    by (apply (bool_decide_unpack _); by vm_compute).
  assert ("-gcnew" ∈ options) as H2
    by (apply (bool_decide_unpack _); by vm_compute).
  assert (metric_maps_gc !! "S0C"
          = Some "current_survivor_space_0_capacity_kB") as H3
    by (by vm_compute).
  assert (metric_maps_gcnew !! "S0C"
          = Some "current_survivor_space_0_capacity_kB") as H4
    by (by vm_compute).
  do 4 (split; [assumption|]).
  exact (metric_keys_unique "prod" [] "-gc" "-gcnew" "S0C" "S0C" _ _
           metric_maps_gc metric_maps_gcnew H1 H2 eq_refl eq_refl H3 H4).
Defined.

(** ** Standard error of the tools *)

Lemma drop_errors_app (t1 t2 : trace) :
  drop_errors (t1 ++ t2) = drop_errors t1 ++ drop_errors t2.
Proof. apply List.filter_app. Qed.

Lemma logged_drop_errors (lvl : level) (t : trace) :
  lvl ≠ ERROR → logged lvl (drop_errors t) = logged lvl t.
Proof.
  intros Hlvl. induction t as [|ev t IH]; [done|].
  change (ev :: t) with ([ev] ++ t).
  rewrite drop_errors_app, !logged_app, IH. f_equal.
  destruct ev as [[] m|cmd_array pre]; try done. by destruct lvl.
Qed.

Lemma spawned_drop_errors (t : trace) : spawned (drop_errors t) = spawned t.
Proof.
  induction t as [|ev t IH]; [done|].
  change (ev :: t) with ([ev] ++ t).
  rewrite drop_errors_app, !spawned_app, IH. f_equal.
  by destruct ev as [[] m|cmd_array pre].
Qed.

Create HintDb sim.

Section Sim.

Lemma sim_ret {A} (a : A) : sim (ret a) (ret a).
Proof. by intros t1 t2 Ht. Qed.

Lemma sim_raise {A} (e : exn) : sim (@raise A e) (raise e).
Proof. by intros t1 t2 Ht. Qed.

Lemma sim_emit (ev : event) : sim (emit ev) (emit ev).
Proof.
  intros t1 t2 Ht. split; [done|]. cbn. by rewrite !drop_errors_app, Ht.
Qed.

Lemma sim_bind {A B} (m1 m2 : M A) (k1 k2 : A → M B) :
  sim m1 m2 → (∀ a, sim (k1 a) (k2 a)) → sim (bind m1 k1) (bind m2 k2).
Proof.
  intros Hm Hk t1 t2 Ht. destruct (Hm t1 t2 Ht) as [Hv Htr]. unfold bind.
  destruct (m1 t1) as [[e1|a1] t1'], (m2 t2) as [[e2|a2] t2'];
    cbn in Hv, Htr; simplify_eq; [done|]. by apply Hk.
Qed.

Lemma sim_debug (env text : string) : sim (debug env text) (debug env text).
Proof. apply sim_emit. Qed.

Lemma sim_getitem {A} (l : list A) (i : nat) : sim (getitem l i) (getitem l i).
Proof.
  unfold getitem. destruct (l !! i); [apply sim_ret | apply sim_raise].
Qed.

Lemma sim_setitem {A} (l : list A) (i : nat) (x : A) :
  sim (setitem l i x) (setitem l i x).
Proof. unfold setitem. case_decide; [apply sim_ret | apply sim_raise]. Qed.

Lemma sim_shlex_split (cmd : string) : sim (shlex_split cmd) (shlex_split cmd).
Proof.
  unfold shlex_split. destruct (Shlex.split cmd);
    [apply sim_raise | apply sim_ret].
Qed.

(** Logging one standard error and another differ in ERROR records only. *)
Lemma sim_log_stderr (stderr1 stderr2 : string) :
  sim (log_stderr stderr1) (log_stderr stderr2).
Proof.
  intros t1 t2 Ht. unfold log_stderr, emit, ret.
  destruct (Py.truthy stderr1), (Py.truthy stderr2); cbn;
    rewrite ?drop_errors_app; cbn; by rewrite ?app_nil_r.
Qed.

Hint Resolve sim_ret sim_raise sim_emit sim_debug sim_getitem sim_setitem
  sim_shlex_split sim_log_stderr : sim.

Lemma sim_select_metric_maps (env opt : string) :
  sim (select_metric_maps env opt) (select_metric_maps env opt).
Proof.
  unfold select_metric_maps.
  repeat (destruct (String.eqb opt _);
          [apply sim_bind; [auto with sim | intros _; apply sim_ret]|]).
  apply sim_bind; [auto with sim | intros _; apply sim_ret].
Qed.

Lemma sim_map_titles (env opt : string) (mm : option (gmap string string))
    (values_all titles : list string) :
  ∀ position metrics,
    sim (map_titles env opt mm values_all position titles metrics)
        (map_titles env opt mm values_all position titles metrics).
Proof.
  induction titles as [|title rest IH]; intros position metrics;
    cbn [map_titles]; [apply sim_ret|].
  destruct mm as [mm|]; [|apply sim_raise].
  destruct (mm !! title).
  - apply sim_bind; [apply sim_getitem | intros value; apply IH].
  - apply sim_bind; [apply sim_emit | intros _; apply IH].
Qed.

Lemma sim_parse_stats (env opt : string) (mm : option (gmap string string))
    (pc : pid_cmd_user) (stdout : string) :
  sim (parse_stats env opt mm pc stdout) (parse_stats env opt mm pc stdout).
Proof.
  unfold parse_stats, build_metrics, rewrite_titles.
  apply sim_bind; [auto with sim | intros values_line].
  apply sim_bind; [auto with sim | intros titles_line].
  apply sim_bind; [|intros titles; apply sim_map_titles].
  destruct (String.eqb opt "-class"); [|apply sim_ret].
  apply sim_bind; [auto with sim | intros ?; auto with sim].
Qed.

Lemma sim_interpret_all (metrics : list (list string)) :
  sim (interpret_all metrics) (interpret_all metrics).
Proof.
  induction metrics as [|m rest IH]; cbn [interpret_all]; [apply sim_ret|].
  apply sim_bind; [apply sim_emit | intros _; apply IH].
Qed.

Hint Resolve sim_select_metric_maps sim_parse_stats sim_interpret_all : sim.

Context (w1 w2 : World) (env : string).
Hypothesis same : same_but_stderr w1 w2.

Lemma is_executable_same (fpath : string) :
  _is_executable w1 fpath = _is_executable w2 fpath.
Proof.
  destruct same as (_ & Hfile & Haccess & _). unfold _is_executable.
  by rewrite Hfile, Haccess.
Qed.

Lemma which_scan_same (program : string) (paths : list string) :
  which_scan w1 program paths = which_scan w2 program paths.
Proof.
  induction paths as [|path rest IH]; [done|]. cbn [which_scan].
  by rewrite is_executable_same, IH.
Qed.

Lemma sim_which (program : string) :
  sim (_which w1 env program) (_which w2 env program).
Proof.
  unfold _which. apply sim_bind; [auto with sim | intros _].
  destruct (PosixPath.split program) as [fpath fname].
  rewrite is_executable_same. destruct same as (<- & _).
  destruct (Py.truthy fpath).
  - destruct (_is_executable w2 program); apply sim_ret.
  - destruct (environ_PATH w1); [|apply sim_raise].
    rewrite which_scan_same. apply sim_ret.
Qed.

(** A launch followed by anything that treats the two standard errors
    alike. *)
Lemma sim_capture {B} (cmd_array : list string) (pre : option preexec_fn)
    (k1 k2 : string * string → M B) :
  (∀ stdout stderr1 stderr2, sim (k1 (stdout, stderr1)) (k2 (stdout, stderr2))) →
  sim (bind (Popen w1 cmd_array pre) k1) (bind (Popen w2 cmd_array pre) k2).
Proof.
  intros Hk t1 t2 Ht. destruct same as (_ & _ & _ & _ & Hpopen).
  specialize (Hpopen cmd_array pre). unfold Popen, bind, emit, raise, ret.
  destruct (popen w1 cmd_array pre) as [e1|[stdout1 stderr1]],
           (popen w2 cmd_array pre) as [e2|[stdout2 stderr2]];
    try done; subst.
  - cbn. by rewrite !drop_errors_app, Ht.
  - apply Hk. by rewrite !drop_errors_app, Ht.
Qed.

Hint Resolve sim_which : sim.

Lemma sim_get_java_pids : sim (_get_java_pids w1 env) (_get_java_pids w2 env).
Proof.
  unfold _get_java_pids.
  apply sim_bind; [auto with sim | intros _].
  apply sim_bind; [auto with sim | intros pgrep_executable].
  destruct (found pgrep_executable) as [pgrep|].
  - apply sim_bind; [auto with sim | intros cmd_array].
    apply sim_capture. intros stdout stderr1 stderr2.
    apply sim_bind; [auto with sim | intros _].
    apply sim_bind; [auto with sim | intros _; apply sim_ret].
  - apply sim_bind; [auto with sim | intros _].
    apply sim_bind; [auto with sim | intros _; apply sim_ret].
Qed.

Lemma sim_pid_to_command (pid : string) :
  sim (_pid_to_command w1 env pid) (_pid_to_command w2 env pid).
Proof.
  unfold _pid_to_command.
  apply sim_bind; [auto with sim | intros _].
  apply sim_bind; [auto with sim | intros ps_executable].
  destruct (found ps_executable) as [ps|].
  - apply sim_bind; [auto with sim | intros cmd_array].
    apply sim_capture. intros stdout stderr1 stderr2.
    apply sim_bind; [auto with sim | intros _].
    apply sim_bind; [auto with sim | intros cmd_array'].
    apply sim_capture. intros stdout' stderr1' stderr2'.
    apply sim_bind; [auto with sim | intros _].
    apply sim_bind; [auto with sim | intros _; apply sim_ret].
  - apply sim_bind; [auto with sim | intros _; apply sim_ret].
Qed.

Lemma sim_inspect_all (pids : list string) :
  ∀ pid_cmd,
    sim (inspect_all w1 env pids pid_cmd) (inspect_all w2 env pids pid_cmd).
Proof.
  induction pids as [|pid rest IH]; intros pid_cmd; cbn [inspect_all];
    [apply sim_ret|].
  apply sim_bind; [apply sim_pid_to_command|]. intros [it|]; [apply IH|].
  apply sim_bind; [auto with sim | intros _; apply IH].
Qed.

Lemma sim_jstat_option (jstat : string) (pc : pid_cmd_user) (opt : string) :
  sim (jstat_option w1 env jstat pc opt) (jstat_option w2 env jstat pc opt).
Proof.
  destruct pc as [[pid cmd] user]. unfold jstat_option.
  apply sim_bind; [auto with sim | intros metric_maps].
  apply sim_bind; [auto with sim | intros cmd_array].
  destruct same as (_ & _ & _ & <- & _).
  apply sim_bind.
  { destruct (getpwnam w1 user); auto with sim. }
  intros record. apply sim_capture. intros stdout stderr1 stderr2.
  apply sim_bind; [auto with sim | intros _; auto with sim].
Qed.

Lemma sim_jstat_options (jstat : string) (pc : pid_cmd_user)
    (opts : list string) :
  ∀ stats,
    sim (jstat_options w1 env jstat pc opts stats)
        (jstat_options w2 env jstat pc opts stats).
Proof.
  induction opts as [|opt rest IH]; intros stats; cbn [jstat_options];
    [apply sim_ret|].
  apply sim_bind; [apply sim_jstat_option | intros metrics; apply IH].
Qed.

Lemma sim_jstat_details (pc : pid_cmd_user) :
  sim (_jstat_details w1 env pc) (_jstat_details w2 env pc).
Proof.
  unfold _jstat_details.
  apply sim_bind; [auto with sim | intros _].
  apply sim_bind; [auto with sim | intros jstat_executable].
  destruct (found jstat_executable) as [jstat|].
  - apply sim_bind; [apply sim_jstat_options | intros stats].
    apply sim_bind; [auto with sim | intros _; apply sim_ret].
  - intros t1 t2 Ht. unfold bind, emit, ret. cbn.
    rewrite !drop_errors_app. cbn. by rewrite !app_nil_r.
Qed.

Lemma sim_collect_all (pid_cmd : list pid_cmd_user) :
  sim (collect_all w1 env pid_cmd) (collect_all w2 env pid_cmd).
Proof.
  induction pid_cmd as [|pc rest IH]; cbn [collect_all]; [apply sim_ret|].
  apply sim_bind; [apply sim_jstat_details | intros metrics].
  apply sim_bind; [|intros _; apply IH].
  destruct metrics; auto with sim.
Qed.

Lemma sim_run : sim (run w1 env) (run w2 env).
Proof.
  unfold run.
  apply sim_bind; [auto with sim | intros _].
  apply sim_bind; [apply sim_get_java_pids | intros pids].
  apply sim_bind; [|intros _; auto with sim].
  destruct pids as [pids|]; [|apply sim_ret].
  destruct (Py.nonempty pids); [|apply sim_ret].
  apply sim_bind; [auto with sim | intros _].
  apply sim_bind; [apply sim_inspect_all | intros ?; apply sim_collect_all].
Qed.

End Sim.


Lemma hush_same (w : World) : same_but_stderr w (hush w).
Proof.
  repeat split. intros cmd_array pre. cbn.
  by destruct (popen w cmd_array pre) as [e|[stdout stderr]].
Qed.


(** ** The guards of the run *)

(** X13: the enumerator never returns an empty list: whenever it returns
    a list of PIDs, the list has at least one element (the empty string
    when [pgrep] printed nothing), so the emptiness test of the run only
    ever rejects [None]. *)
Theorem get_java_pids_never_empty (w : World) (env : string)
    (pids : list string) (t : trace) :
  (_get_java_pids w env t).1 = inr (Some pids) →
  pids ≠ [] ∧ Py.nonempty pids = true ∧ ∃ stdout, pids = pids_of_stdout stdout.
Proof.
  assert (∀ stdout, pids_of_stdout stdout ≠ []
                    ∧ Py.nonempty (pids_of_stdout stdout) = true) as Hne.
  { intros stdout. pose proof (pids_of_stdout_nonempty stdout) as Hlen.
    destruct (pids_of_stdout stdout); [cbn in Hlen; lia | done]. }
  unfold _get_java_pids, bind, debug, emit.
  destruct (_which w env "pgrep" _) as [[e|pgrep_executable] t1]; [done|].
  destruct (found pgrep_executable) as [pgrep|]; [|done].
  destruct (shlex_split _ t1) as [[e|cmd_array] t2]; [done|].
  destruct (Popen w cmd_array None t2) as [[e|[stdout stderr]] t3]; [done|].
  destruct (log_stderr stderr t3) as [[e|[]] t4]; [done|].
  cbn. intros [= <-]. destruct (Hne stdout). eauto.
Qed.

Lemma get_java_pids_never_empty_witness :
  (_get_java_pids host_idle "prod" []).1 = inr (Some [EmptyString])
  ∧ [EmptyString] ≠ ([] : list string)
  ∧ Py.nonempty [EmptyString] = true.
Proof.
  split; [reflexivity|].
  destruct (get_java_pids_never_empty host_idle "prod" [EmptyString] []
              eq_refl) as (Hne & Htruthy & _).
  by split.
Defined.

(** X14: on any host where the statistics tool cannot be located, the
    statistics stage logs one error, launches nothing and returns [None],
    and the second loop of the run then raises [TypeError] at its first
    process, before any line is emitted. *)
Theorem missing_jstat_raises_type_error (w : World) (env : string)
    (pc : pid_cmd_user) (rest : list pid_cmd_user) (t : trace) :
  (_which w env "jstat" []).1 = inr None →
  ∃ evs,
    _jstat_details w env pc t = (inr None, t ++ evs)
    ∧ collect_all w env (pc :: rest) t = (inl TypeError, t ++ evs)
    ∧ logged ERROR evs = [Plain (msg env "failed to find jstat executable")]
    ∧ logged INFO evs = []
    ∧ spawned evs = [].
Proof.
  intros Hw. eexists. split; [by apply jstat_details_not_found|].
  split; [by apply collect_all_not_found|]. by cbn.
Qed.

Lemma missing_jstat_raises_type_error_witness :
  (_which host_no_jstat "prod" "jstat" []).1 = inr None
  ∧ (collect_all host_no_jstat "prod"
       [("42", "java -jar app.jar", "app"); ("43", "java", "app")] []).1
    = inl TypeError.
Proof.
  split; [reflexivity|].
  destruct (missing_jstat_raises_type_error host_no_jstat "prod"
              ("42", "java -jar app.jar", "app") [("43", "java", "app")] []
              eq_refl) as (evs & _ & Hcollect & _).
  exact (f_equal fst Hcollect).
Defined.

(** ** The two phases of a run *)

Lemma phased_first {A} (m : M A) : emits plain_or_log m → phased m.
Proof.
  intros Hm t. destruct (Hm t) as (evs & Htr & Hevs).
  exists evs, []. by rewrite app_nil_r.
Qed.

Lemma phased_second {A} (m : M A) : emits demoted_or_log m → phased m.
Proof.
  intros Hm t. destruct (Hm t) as (evs & Htr & Hevs). by exists [], evs.
Qed.

Lemma phased_bind_first {A B} (m : M A) (k : A → M B) :
  emits plain_or_log m → (∀ a, phased (k a)) → phased (bind m k).
Proof.
  intros Hm Hk t. destruct (Hm t) as (evs & Htr & Hevs). unfold bind.
  destruct (m t) as [[e|a] t1]; cbn [snd] in Htr; subst t1.
  - exists evs, []. by rewrite app_nil_r.
  - destruct (Hk a (t ++ evs)) as (first & second & Htr & Hfirst & Hsecond).
    exists (evs ++ first), second. rewrite Htr, <- !app_assoc.
    split; [done|]. split; [by apply Forall_app | done].
Qed.

Lemma phased_bind_second {A B} (m : M A) (k : A → M B) :
  phased m → (∀ a, emits demoted_or_log (k a)) → phased (bind m k).
Proof.
  intros Hm Hk t. destruct (Hm t) as (first & second & Htr & Hfirst & Hsecond).
  unfold bind. destruct (m t) as [[e|a] t1]; cbn [snd] in Htr; subst t1.
  - by exists first, second.
  - destruct (Hk a (t ++ first ++ second)) as (evs & Htr & Hevs).
    exists first, (second ++ evs). rewrite Htr, <- !app_assoc.
    split; [done|]. split; [done | by apply Forall_app].
Qed.

(** X15: a run inspects before it collects: its trace splits into a first
    part without any demoted launch ([pgrep] and every [ps]) and a second
    part without any launch that is not demoted (every launch of the
    statistics tool), so no process is inspected after the collection of
    statistics has begun. *)
Theorem run_inspects_before_collecting (w : World) (env : string)
    (t : trace) :
  ∃ first second,
    (run w env t).2 = t ++ first ++ second
    ∧ Forall plain_or_log first
    ∧ Forall demoted_or_log second.
Proof.
  revert t. change (phased (run w env)). unfold run.
  apply phased_bind_first; [by apply emits_debug | intros _].
  apply phased_bind_first; [apply emits_get_java_pids; by intros|].
  intros pids. apply phased_bind_second; [|intros _; by apply emits_debug].
  destruct pids as [pids|]; [|apply phased_first, emits_ret].
  destruct (Py.nonempty pids); [|apply phased_first, emits_ret].
  apply phased_bind_first; [by apply emits_debug | intros _].
  apply phased_bind_first; [apply emits_inspect_all; by intros|].
  intros pid_cmd. apply phased_second, emits_collect_all; by intros.
Qed.
